(** * Volunteer activity matcher: data model, operations and their properties

    A shallow embedding of [VolunteerActivityMatcher] (src/app.py) and of the
    inline cancel-registration handler of the same file.

    - Python [int] is [Z]; [len(l) + 1] is [Z.of_nat (length l) + 1].
    - Python [str] is [string], the UTF-8 bytes of the text; equality and the
      substring test [in] on the bytes agree with those on code points.
    - The record dicts are Rocq records; [self.data] is a [Store] of two
      lists.  A reference to a record obtained by [next(...)] or by iterating
      a collection is the position of that record in its list, and a mutation
      through the reference rewrites that position.
    - Exceptions are the [Raise] results of a state-and-exception monad: what
      was mutated before the exception stays mutated.
    - The library functions of the matching loop, [str.lower] and
      [datetime.strptime(...).strftime("%A")], are parameters of the
      matching operations; every property is proved for all of their
      instances, and [Runtime] gives one to compute with. *)

From Stdlib Require Import ZArith String Ascii.
From stdpp Require Import base tactics decidable option list numbers strings gmap sorting.

Open Scope string_scope.
Open Scope Z_scope.
Open Scope list_scope.

(** ** Records *)

Module User.
Record t := mk {
  id : Z;
  name : string;
  location : string;
  preferred_categories : list string;
  available_days : list string;
  registered_activities : list Z
}.
End User.

Module Activity.
Record t := mk {
  id : Z;
  name : string;
  category : string;
  location : string;
  date : string;
  time_range : string;
  description : string;
  participants : list Z
}.
End Activity.

(** [self.data]: the document with its two collections. *)
Record Store := mkStore {
  users : list User.t;
  activities : list Activity.t
}.

(** [{"users": [], "activities": []}] *)
Definition empty_document : Store := mkStore [] [].

(** What is under the path [self.data_file].  A file that exists either
    cannot be opened, holds text that [json.load] rejects, or holds a
    document. *)
Inductive File :=
| NoFile
| Unreadable
| Garbage
| Document (d : Store).

(** The matcher object together with the file system it writes to. *)
Record State := mkState {
  data : Store;
  disk : File
}.

(** ** Exceptions and the monad of the methods *)

Inductive exn :=
| ValueError
| StopIteration
| FileNotFoundError
| OSError
| JSONDecodeError
| IndexError.

Inductive Result (A : Type) :=
| Ok (a : A)
| Raise (e : exn).
Arguments Ok {A} a.
Arguments Raise {A} e.

Definition M (A : Type) : Type := State → Result A * State.

Definition ret {A} (a : A) : M A := λ st, (Ok a, st).

Definition bind {A B} (m : M A) (k : A → M B) : M B :=
  λ st, match m st with
        | (Ok a, st') => k a st'
        | (Raise e, st') => (Raise e, st')
        end.

Definition raise {A} (e : exn) : M A := λ st, (Raise e, st).

Definition get_data : M Store := λ st, (Ok (data st), st).

Definition set_data (d : Store) : M unit := λ st, (Ok tt, mkState d (disk st)).

(** A mutation of the record at position [i] of a collection, through a
    reference to it. *)
Definition set_user (i : nat) (u : User.t) : M unit :=
  λ st, (Ok tt, mkState (mkStore (<[i := u]> (users (data st))) (activities (data st)))
                        (disk st)).

Definition set_activity (j : nat) (a : Activity.t) : M unit :=
  λ st, (Ok tt, mkState (mkStore (users (data st)) (<[j := a]> (activities (data st))))
                        (disk st)).

Notation "'let*' x ':=' m 'in' k" := (bind m (λ x, k))
  (at level 10, x name, m at level 100, k at level 200, only parsing).
Notation "'exec' m 'in' k" := (bind m (λ _, k))
  (at level 10, m at level 100, k at level 200, only parsing).

(** ** Persistence *)

(** [os.path.exists(self.data_file)] *)
Definition path_exists (f : File) : bool :=
  match f with NoFile => false | _ => true end.

(** [json.load(open(self.data_file))] *)
Definition open_and_load (f : File) : Result Store :=
  match f with
  | NoFile => Raise FileNotFoundError
  | Unreadable => Raise OSError
  | Garbage => Raise JSONDecodeError
  | Document d => Ok d
  end.

(** The text handed to [st.error] in the [except] branch. *)
Definition corrupt_warning : string := "数据文件损坏，将创建新文件".

(** [_load_data]: the value returned and the warnings shown.  The [except
    Exception] branch shows the warning and falls through to the final
    [return]. *)
Definition _load_data (f : File) : Result Store * list string :=
  if path_exists f then
    match open_and_load f with
    | Ok d => (Ok d, [])
    | Raise _ => (Ok empty_document, [corrupt_warning])
    end
  else (Ok empty_document, []).

(** [_save_data]: the whole document overwrites the file.  The write is
    taken to succeed. *)
Definition _save_data : M unit :=
  λ st, (Ok tt, mkState (data st) (Document (data st))).

(** [__init__] *)
Definition init (f : File) : Result State * list string :=
  match _load_data f with
  | (Ok d, w) => (Ok (mkState d f), w)
  | (Raise e, w) => (Raise e, w)
  end.

(** ** Creation *)

Definition add_activity (name category location date time_range description : string)
  : M Activity.t :=
  let* d := get_data in
  let activity :=
    Activity.mk (Z.of_nat (length (activities d)) + 1)
                name category location date time_range description [] in
  exec set_data (mkStore (users d) (activities d ++ [activity])) in
  exec _save_data in
  ret activity.

Definition register_user (name location : string)
    (preferred_categories available_days : list string) : M User.t :=
  let* d := get_data in
  let user :=
    User.mk (Z.of_nat (length (users d)) + 1)
            name location preferred_categories available_days [] in
  exec set_data (mkStore (users d ++ [user]) (activities d)) in
  exec _save_data in
  ret user.

(** ** Lookup by id: [next((x for x in xs if x["id"] == i), None)]

    The position comes with the record: it stands for the reference. *)
Definition find_user (user_id : Z) (d : Store) : option (nat * User.t) :=
  list_find (λ u, User.id u = user_id) (users d).

Definition find_activity (activity_id : Z) (d : Store) : option (nat * Activity.t) :=
  list_find (λ a, Activity.id a = activity_id) (activities d).

(** ** Registration *)

Definition user_not_found : string := "用户不存在".
Definition activity_not_found : string := "活动不存在".
Definition already_registered : string := "你已报名参加此活动".
Definition success_prefix : string := "成功报名参加活动: ".

(** [user["registered_activities"].append(activity_id)] *)
Definition add_registration (activity_id : Z) (u : User.t) : User.t :=
  User.mk (User.id u) (User.name u) (User.location u)
          (User.preferred_categories u) (User.available_days u)
          (User.registered_activities u ++ [activity_id]).

(** [activity["participants"].append(user_id)] *)
Definition add_participant (user_id : Z) (a : Activity.t) : Activity.t :=
  Activity.mk (Activity.id a) (Activity.name a) (Activity.category a)
              (Activity.location a) (Activity.date a) (Activity.time_range a)
              (Activity.description a) (Activity.participants a ++ [user_id]).

Definition register_for_activity (user_id activity_id : Z) : M string :=
  let* d := get_data in
  let user := find_user user_id d in
  let activity := find_activity activity_id d in
  match user with
  | None => ret user_not_found
  | Some (i, u) =>
    match activity with
    | None => ret activity_not_found
    | Some (j, a) =>
      if bool_decide (activity_id ∈ User.registered_activities u)
      then ret already_registered
      else
        exec set_user i (add_registration activity_id u) in
        exec set_activity j (add_participant user_id a) in
        exec _save_data in
        ret (success_prefix +:+ Activity.name a)
    end
  end.

(** The state that a successful registration leaves: the two appends and
    the save. *)
Definition registered_state (i j : nat) (u : User.t) (a : Activity.t)
    (user_id activity_id : Z) (st : State) : State :=
  let d' := mkStore (<[i := add_registration activity_id u]> (users (data st)))
                    (<[j := add_participant user_id a]> (activities (data st))) in
  mkState d' (Document d').

(** ** Listing *)

Definition list_activities : M (list Activity.t) :=
  let* d := get_data in
  ret (activities d).

Definition list_user_activities (user_id : Z) : M (list Activity.t) :=
  let* d := get_data in
  match find_user user_id d with
  | None => ret []
  | Some (_, u) =>
    ret (filter (λ a, Activity.id a ∈ User.registered_activities u) (activities d))
  end.

(** ** Cancelling a registration (the handler of the cancel button)

    [l.remove(x)] takes out the first occurrence of [x]; the handler calls it
    only under [if x in l]. *)
Fixpoint remove_first (x : Z) (l : list Z) : list Z :=
  match l with
  | [] => []
  | y :: r => if bool_decide (y = x) then r else y :: remove_first x r
  end.

Definition set_registered (l : list Z) (u : User.t) : User.t :=
  User.mk (User.id u) (User.name u) (User.location u)
          (User.preferred_categories u) (User.available_days u) l.

Definition set_participants (l : list Z) (a : Activity.t) : Activity.t :=
  Activity.mk (Activity.id a) (Activity.name a) (Activity.category a)
              (Activity.location a) (Activity.date a) (Activity.time_range a)
              (Activity.description a) l.

Definition cancel_prefix : string := "已成功取消报名: ".

(** The handler runs for one [activity] of [list_user_activities(user_id)]:
    a reference to a record of the activities collection, here its position
    [k].  The page offers no button for a position outside the collection;
    [IndexError] stands for that.  The user is looked up by
    [next(...)] without a default, which raises [StopIteration] when there
    is none; the page never gets there, since the list it iterates over is
    empty for an id that no user carries. *)
Definition unregister_from_activity (user_id : Z) (k : nat) : M string :=
  let* d := get_data in
  match activities d !! k with
  | None => raise IndexError
  | Some activity =>
    match find_user user_id d with
    | None => raise StopIteration
    | Some (i, user) =>
      exec (if bool_decide (Activity.id activity ∈ User.registered_activities user)
            then set_user i (set_registered
                   (remove_first (Activity.id activity) (User.registered_activities user)) user)
            else ret tt) in
      exec (if bool_decide (user_id ∈ Activity.participants activity)
            then set_activity k (set_participants
                   (remove_first user_id (Activity.participants activity)) activity)
            else ret tt) in
      exec _save_data in
      ret (cancel_prefix +:+ Activity.name activity)
    end
  end.

(** ** Matching *)

(** Python's [x in y] on strings: [x] occurs in [y] as a contiguous run. *)
Fixpoint str_in (x y : string) : bool :=
  if String.prefix x y then true
  else match y with
       | EmptyString => false
       | String _ y' => str_in x y'
       end.

(** The dict literal [chinese_days] of the inner loop. *)
Definition chinese_day_table : list (string * string) :=
  [ ("周一", "Monday"); ("周二", "Tuesday"); ("周三", "Wednesday");
    ("周四", "Thursday"); ("周五", "Friday"); ("周六", "Saturday");
    ("周日", "Sunday") ].

Definition chinese_days : gmap string string := list_to_map chinese_day_table.

(** The seven day labels with the English day each stands for, as the
    specification names them: 周一 is Monday, and so on to 周日, Sunday.
    This relation is written from the specification, not from the dict of
    the loop; [chinese_days_label] below compares the two. *)
Inductive label_day : string → string → Prop :=
| label_monday : label_day "周一" "Monday"
| label_tuesday : label_day "周二" "Tuesday"
| label_wednesday : label_day "周三" "Wednesday"
| label_thursday : label_day "周四" "Thursday"
| label_friday : label_day "周五" "Friday"
| label_saturday : label_day "周六" "Saturday"
| label_sunday : label_day "周日" "Sunday".

Section Matching.

(** The two library functions of the loop body: [str.lower], and the
    composition [datetime.strptime(s, "%Y-%m-%d").strftime("%A")], which is
    [None] where [strptime] raises [ValueError]. *)
Variable lower : string → string.
Variable strptime_weekday : string → option string.

Definition weekday_name (date : string) : M string :=
  match strptime_weekday date with
  | Some activity_day => ret activity_day
  | None => raise ValueError
  end.

(** The loop over [user["available_days"]], with its two [break]s. *)
Fixpoint day_loop (activity_day : string) (days : list string) : bool :=
  match days with
  | [] => false
  | user_day :: rest =>
    if str_in (lower user_day) (lower activity_day) then true
    else
      match chinese_days !! user_day with
      | Some english =>
        if str_in (lower english) (lower activity_day) then true
        else day_loop activity_day rest
      | None => day_loop activity_day rest
      end
  end.

Definition category_matched (user : User.t) (activity : Activity.t) : bool :=
  bool_decide (Activity.category activity ∈ User.preferred_categories user).

Definition location_matched (user : User.t) (activity : Activity.t) : bool :=
  bool_decide (Activity.location activity = User.location user).

(** The loop over [self.data["activities"]] with its accumulator. *)
Fixpoint match_loop (user : User.t) (acts matched : list Activity.t)
  : M (list Activity.t) :=
  match acts with
  | [] => ret matched
  | activity :: rest =>
    let* activity_day := weekday_name (Activity.date activity) in
    let day_matched := day_loop activity_day (User.available_days user) in
    if day_matched && (category_matched user activity || location_matched user activity)
    then match_loop user rest (matched ++ [activity])
    else match_loop user rest matched
  end.

Definition match_activities (user_id : Z) : M (list Activity.t) :=
  let* d := get_data in
  match find_user user_id d with
  | None => ret []
  | Some (_, user) => match_loop user (activities d) []
  end.

(** *** The matching rule in the words of the specification *)

(** [x] appears in [y] when case is ignored. *)
Definition ci_substring (x y : string) : Prop :=
  str_in (lower x) (lower y) = true.

Definition day_match (user : User.t) (weekday : string) : Prop :=
  ∃ d, d ∈ User.available_days user ∧
       (ci_substring d weekday ∨
        ∃ english, label_day d english ∧ ci_substring english weekday).

Definition category_match (user : User.t) (activity : Activity.t) : Prop :=
  Activity.category activity ∈ User.preferred_categories user.

Definition location_match (user : User.t) (activity : Activity.t) : Prop :=
  Activity.location activity = User.location user.

(** An activity whose date converts to [weekday] is a match for [user]. *)
Definition is_match (user : User.t) (activity : Activity.t) : Prop :=
  ∃ weekday, strptime_weekday (Activity.date activity) = Some weekday ∧
    day_match user weekday ∧
    (category_match user activity ∨ location_match user activity).

(** The test of one round of [match_loop], for an activity whose date
    converts. *)
Definition selected (user : User.t) (activity : Activity.t) : bool :=
  match strptime_weekday (Activity.date activity) with
  | Some activity_day =>
    day_loop activity_day (User.available_days user)
    && (category_matched user activity || location_matched user activity)
  | None => false
  end.

(** Every stored date converts. *)
Definition dates_valid (d : Store) : Prop :=
  ∀ a, a ∈ activities d → is_Some (strptime_weekday (Activity.date a)).

End Matching.

(** ** A runtime to evaluate the matcher on

    An instance of the two library functions for ASCII letters and for
    zero-padded dates of the form [YYYY-MM-DD], the form that
    [strftime("%Y-%m-%d")] writes.  The theorems below hold for every
    instance; this one serves to run the operations on examples. *)
Module Runtime.

Definition lower_ascii (c : ascii) : ascii :=
  let n := N_of_ascii c in
  if ((65 <=? n) && (n <=? 90))%N then ascii_of_N (n + 32) else c.

Fixpoint lower (s : string) : string :=
  match s with
  | EmptyString => EmptyString
  | String c r => String (lower_ascii c) (lower r)
  end.

Definition digit (c : ascii) : option Z :=
  let n := N_of_ascii c in
  if ((48 <=? n) && (n <=? 57))%N then Some (Z.of_N n - 48) else None.

Fixpoint number (acc : Z) (cs : list ascii) : option Z :=
  match cs with
  | [] => Some acc
  | c :: r => match digit c with
              | Some v => number (10 * acc + v) r
              | None => None
              end
  end.

Definition is_leap (y : Z) : bool :=
  ((y mod 4 =? 0) && (negb (y mod 100 =? 0) || (y mod 400 =? 0)))%Z.

Definition days_in_month (y m : Z) : Z :=
  if (m =? 2)%Z then (if is_leap y then 29 else 28)
  else if ((m =? 4) || (m =? 6) || (m =? 9) || (m =? 11))%Z then 30
  else 31.

Fixpoint days_before_month (y : Z) (months : nat) : Z :=
  match months with
  | O => 0
  | S k => days_before_month y k + days_in_month y (Z.of_nat (S k))
  end.

(** [date.toordinal()]: 1 for the first of January of year 1. *)
Definition toordinal (y m d : Z) : Z :=
  let y' := y - 1 in
  y' * 365 + y' / 4 - y' / 100 + y' / 400
  + days_before_month y (Z.to_nat (m - 1)) + d.

Definition day_names : list string :=
  [ "Monday"; "Tuesday"; "Wednesday"; "Thursday"; "Friday"; "Saturday"; "Sunday" ].

Definition parse_date (s : string) : option (Z * Z * Z) :=
  match list_ascii_of_string s with
  | [y1; y2; y3; y4; dash1; m1; m2; dash2; d1; d2] =>
    if bool_decide (dash1 = "-"%char ∧ dash2 = "-"%char) then
      match number 0 [y1; y2; y3; y4], number 0 [m1; m2], number 0 [d1; d2] with
      | Some y, Some m, Some d =>
        if ((1 <=? y) && (1 <=? m) && (m <=? 12) && (1 <=? d) && (d <=? days_in_month y m))%Z
        then Some (y, m, d) else None
      | _, _, _ => None
      end
    else None
  | _ => None
  end.

Definition strptime_weekday (s : string) : option string :=
  match parse_date s with
  | Some (y, m, d) => day_names !! Z.to_nat ((toordinal y m d + 6) mod 7)
  | None => None
  end.

End Runtime.

(** ** Sequences of calls *)

Inductive Call :=
| AddActivity (name category location date time_range description : string)
| RegisterUser (name location : string) (preferred_categories available_days : list string)
| Register (user_id activity_id : Z)
| Unregister (user_id : Z) (k : nat).

(** The state a call leaves; its value (or exception) is dropped. *)
Definition step (c : Call) (st : State) : State :=
  match c with
  | AddActivity n c l d t ds => snd (add_activity n c l d t ds st)
  | RegisterUser n l pc ad => snd (register_user n l pc ad st)
  | Register u a => snd (register_for_activity u a st)
  | Unregister u k => snd (unregister_from_activity u k st)
  end.

Definition run (cs : list Call) (st : State) : State :=
  foldl (λ st c, step c st) st cs.

Definition is_registration (c : Call) : bool :=
  match c with Register _ _ | Unregister _ _ => true | _ => false end.

(** The ids of a collection, in insertion order. *)
Definition user_ids (d : Store) : list Z := User.id <$> users d.
Definition activity_ids (d : Store) : list Z := Activity.id <$> activities d.

Definition creates_user (c : Call) : bool :=
  match c with RegisterUser _ _ _ _ => true | _ => false end.

Definition creates_activity (c : Call) : bool :=
  match c with AddActivity _ _ _ _ _ _ => true | _ => false end.

(** How many calls of a sequence pass the test [p]. *)
Definition count_calls (p : Call → bool) (cs : list Call) : nat :=
  length (filter (λ c, p c = true) cs).

(** ** Invariants of the store *)

(** The registration link is recorded on both sides. *)
Definition symmetric (d : Store) : Prop :=
  ∀ u a, u ∈ users d → a ∈ activities d →
    (Activity.id a ∈ User.registered_activities u ↔ User.id u ∈ Activity.participants a).

Definition unique_ids (d : Store) : Prop :=
  NoDup (User.id <$> users d) ∧ NoDup (Activity.id <$> activities d).

(** No list of registrations names an id twice. *)
Definition duplicate_free (d : Store) : Prop :=
  (∀ u, u ∈ users d → NoDup (User.registered_activities u)) ∧
  (∀ a, a ∈ activities d → NoDup (Activity.participants a)).

Definition consistent (d : Store) : Prop :=
  unique_ids d ∧ duplicate_free d ∧ symmetric d.

(** The ids of each collection are 1, 2, 3, ... in insertion order. *)
Definition sequential (d : Store) : Prop :=
  user_ids d = seqZ 1 (Z.of_nat (length (users d))) ∧
  activity_ids d = seqZ 1 (Z.of_nat (length (activities d))).

(** Every registration names a stored activity, every participant a stored
    user. *)
Definition referential (d : Store) : Prop :=
  (∀ u x, u ∈ users d → x ∈ User.registered_activities u → x ∈ activity_ids d) ∧
  (∀ a x, a ∈ activities d → x ∈ Activity.participants a → x ∈ user_ids d).

(** What holds of every store that the calls build from the empty
    document. *)
Definition built (d : Store) : Prop :=
  sequential d ∧ referential d ∧ duplicate_free d ∧ symmetric d.

(** Number of occurrences of [x] in [l]. *)
Definition occurrences (x : Z) (l : list Z) : nat :=
  length (filter (λ y, y = x) l).

(** ** The script around the matcher *)

(** The block that adds the sample activities when the matcher is created
    with no activity.  [date_after k] stands for
    [(today + timedelta(days=k)).strftime("%Y-%m-%d")]. *)
Definition seed_sample_data (date_after : Z → string) : M unit :=
  let* d := get_data in
  match activities d with
  | [] =>
    exec add_activity "城市公园植树活动" "环保活动" "东城区" (date_after 1)
           "09:00-12:00" "与社区一起参与城市绿化，为城市增添一抹绿色" in
    exec add_activity "社区图书馆整理" "教育支持" "西城区" (date_after 2)
           "14:00-16:30" "协助整理社区图书馆书籍，创造良好阅读环境" in
    exec add_activity "养老院关爱探访" "关爱老人" "东城区" (date_after 6)
           "10:00-12:00" "为养老院老人带去欢乐和关爱" in
    exec add_activity "海滩清洁行动" "环保活动" "南城区" (date_after 3)
           "08:00-11:00" "保护海洋环境，清理海滩垃圾" in
    exec add_activity "社区儿童教育" "教育支持" "东城区" (date_after 4)
           "15:00-17:00" "为社区儿童提供课外辅导和游戏活动" in
    ret tt
  | _ :: _ => ret tt
  end.

(** The submit branch of the registration form: what the page shows, an
    error text through [st.error] or the success with the created user. *)
Inductive FormResult :=
| FormError (message : string)
| Registered (user : User.t).

Definition name_missing : string := "请输入您的姓名".
Definition categories_missing : string := "请至少选择一个偏好的活动类型".
Definition days_missing : string := "请至少选择一个空闲时间".

Definition submit_registration (name location : string)
    (preferred_categories available_days : list string) : M FormResult :=
  match name with
  | EmptyString => ret (FormError name_missing)
  | String _ _ =>
    match preferred_categories with
    | [] => ret (FormError categories_missing)
    | _ :: _ =>
      match available_days with
      | [] => ret (FormError days_missing)
      | _ :: _ =>
        let* user := register_user name location preferred_categories available_days in
        ret (Registered user)
      end
    end
  end.

(** ["成功" in result]: the test by which the pages show the answer of
    [register_for_activity] with [st.success] rather than [st.error]. *)
Definition shows_success (result : string) : bool := str_in "成功" result.

(** [sum(g(x) for x in l)]: the additions run from the left, from 0. *)
Definition tally {A} (g : A → Z) (l : list A) : Z :=
  foldl (λ acc x, acc + g x) 0 l.

(** The third metric of the home page:
    [sum(len(a["participants"]) for a in matcher.data["activities"])]. *)
Definition total_participations (d : Store) : Z :=
  tally (λ a, Z.of_nat (length (Activity.participants a))) (activities d).

(** The same count taken on the side of the users. *)
Definition total_registrations (d : Store) : Z :=
  tally (λ u, Z.of_nat (length (User.registered_activities u))) (users d).

(** The two filters of the browse page; the option [全部] of a select box
    switches its filter off. *)
Definition all_option : string := "全部".

Definition browse_filter (category_filter location_filter : string)
    (activities : list Activity.t) : list Activity.t :=
  let filtered_activities := activities in
  let filtered_activities :=
    if bool_decide (category_filter ≠ all_option)
    then filter (λ a, Activity.category a = category_filter) filtered_activities
    else filtered_activities in
  let filtered_activities :=
    if bool_decide (location_filter ≠ all_option)
    then filter (λ a, Activity.location a = location_filter) filtered_activities
    else filtered_activities in
  filtered_activities.

(** Two user records that differ at most in their registrations, two
    activity records that differ at most in their participants, and two
    results of [match_activities] that name the same activities. *)
Definition same_profile (u u' : User.t) : Prop :=
  set_registered [] u = set_registered [] u'.

Definition same_offer (a a' : Activity.t) : Prop :=
  set_participants [] a = set_participants [] a'.

Definition same_matches (r r' : Result (list Activity.t)) : Prop :=
  match r, r' with
  | Ok l, Ok l' => Forall2 same_offer l l'
  | Raise e, Raise e' => e = e'
  | _, _ => False
  end.

(** The file holds the document of the matcher. *)
Definition in_sync (st : State) : Prop := disk st = Document (data st).

(** ** Sample stores *)

Module Sample.

(** The example of the specification: a user of 东城区 who prefers 环保活动
    and is free on 周三, and four activities, the first three on a
    Wednesday, the last on a Thursday. *)
Definition user1 : User.t :=
  User.mk 1 "小明" "东城区" ["环保活动"] ["周三"] [].

Definition planting : Activity.t :=
  Activity.mk 1 "城市公园植树活动" "环保活动" "西城区" "2024-01-03" "09:00-12:00" "" [].
Definition library : Activity.t :=
  Activity.mk 2 "社区图书馆整理" "教育支持" "东城区" "2024-01-10" "14:00-16:30" "" [].
Definition tutoring : Activity.t :=
  Activity.mk 3 "社区儿童教育" "教育支持" "西城区" "2024-01-17" "15:00-17:00" "" [].
Definition beach : Activity.t :=
  Activity.mk 4 "海滩清洁行动" "环保活动" "东城区" "2024-01-04" "08:00-11:00" "" [].

Definition store : Store := mkStore [user1] [planting; library; tutoring; beach].
Definition state : State := mkState store (Document store).

(** The same store with one more activity, on the 30th of February. *)
Definition misdated : Activity.t :=
  Activity.mk 5 "养老院关爱探访" "关爱老人" "东城区" "2024-02-30" "10:00-12:00" "" [].
Definition bad_store : Store :=
  mkStore [user1] [planting; library; tutoring; beach; misdated].
Definition bad_state : State := mkState bad_store (Document bad_store).

(** A store, as a hand-edited file can hold it, whose user lists activity 1
    twice while activity 1 lists the user once. *)
Definition dup_user : User.t :=
  User.mk 1 "小明" "东城区" ["环保活动"] ["周三"] [1; 1].
Definition dup_activity : Activity.t :=
  Activity.mk 1 "城市公园植树活动" "环保活动" "西城区" "2024-01-03" "09:00-12:00" "" [1].
Definition dup_store : Store := mkStore [dup_user] [dup_activity].
Definition dup_state : State := mkState dup_store (Document dup_store).

(** A store, as a hand-edited file can hold it, whose activity 1 lists
    user 1 while the user does not list the activity. *)
Definition listing_activity : Activity.t :=
  Activity.mk 1 "城市公园植树活动" "环保活动" "西城区" "2024-01-03" "09:00-12:00" "" [1].
Definition one_sided_store : Store := mkStore [user1] [listing_activity].
Definition one_sided_state : State := mkState one_sided_store (Document one_sided_store).

End Sample.

(** * Properties *)

(** ** Lookup by id *)

Lemma find_user_None user_id d :
  find_user user_id d = None ↔ ∀ u, u ∈ users d → User.id u ≠ user_id.
Proof.
  unfold find_user. rewrite list_find_None, Forall_forall. reflexivity.
Qed.

Lemma find_activity_None activity_id d :
  find_activity activity_id d = None ↔ ∀ a, a ∈ activities d → Activity.id a ≠ activity_id.
Proof.
  unfold find_activity. rewrite list_find_None, Forall_forall. reflexivity.
Qed.

(** The record found is the first of the collection that carries the id. *)
Lemma find_user_Some user_id d i u :
  find_user user_id d = Some (i, u) ↔
  users d !! i = Some u ∧ User.id u = user_id ∧
  ∀ j y, users d !! j = Some y → (j < i)%nat → User.id y ≠ user_id.
Proof. unfold find_user. by rewrite list_find_Some. Qed.

Lemma find_activity_Some activity_id d j a :
  find_activity activity_id d = Some (j, a) ↔
  activities d !! j = Some a ∧ Activity.id a = activity_id ∧
  ∀ k y, activities d !! k = Some y → (k < j)%nat → Activity.id y ≠ activity_id.
Proof. unfold find_activity. by rewrite list_find_Some. Qed.

(** ** The outcome messages are four different texts *)

Lemma success_is_distinct n :
  success_prefix +:+ n ≠ user_not_found ∧
  success_prefix +:+ n ≠ activity_not_found ∧
  success_prefix +:+ n ≠ already_registered.
Proof. repeat split; intros H; cbv in H; discriminate H. Qed.

Lemma failures_are_distinct :
  user_not_found ≠ activity_not_found ∧
  user_not_found ≠ already_registered ∧
  activity_not_found ≠ already_registered.
Proof. repeat split; intros H; cbv in H; discriminate H. Qed.

(** ** Loading *)

(** C8: [_load_data] always returns a document and never raises.  It is the
    stored document when the file exists and parses; it is the empty
    document, with no warning, when there is no file, and the empty document
    with the one warning when the file cannot be opened or parsed. *)
Theorem load_data_recovers (f : File) :
  ∃ d w, _load_data f = (Ok d, w) ∧ (length w ≤ 1)%nat ∧
    match f with
    | Document stored => d = stored ∧ w = []
    | NoFile => d = empty_document ∧ w = []
    | Unreadable | Garbage => d = empty_document ∧ w = [corrupt_warning]
    end.
Proof.
  destruct f; cbn; eexists _, _; (split; [reflexivity|]); cbn; auto with lia.
Qed.

(** ** Registration: outcomes *)

Lemma register_for_activity_eq user_id activity_id st :
  register_for_activity user_id activity_id st =
  match find_user user_id (data st), find_activity activity_id (data st) with
  | None, _ => (Ok user_not_found, st)
  | Some _, None => (Ok activity_not_found, st)
  | Some (i, u), Some (j, a) =>
    if bool_decide (activity_id ∈ User.registered_activities u)
    then (Ok already_registered, st)
    else (Ok (success_prefix +:+ Activity.name a),
          registered_state i j u a user_id activity_id st)
  end.
Proof.
  unfold register_for_activity, bind, get_data.
  destruct (find_user user_id (data st)) as [[i u]|]; [|reflexivity].
  destruct (find_activity activity_id (data st)) as [[j a]|]; [|reflexivity].
  destruct (bool_decide _); reflexivity.
Qed.

(** C3: the four outcomes of [register_for_activity], in their order of
    priority.  No user with the id: user-not-found.  Otherwise no activity
    with the id: activity-not-found.  Otherwise the id of the activity is in
    the user's list: already-registered.  In these three the state is left as
    it was.  Otherwise success: the activity id is appended to the list of
    the user, the user id to the participants of the activity, the document
    is saved, and the message carries the name of the activity.  The four
    messages are pairwise different. *)
Theorem register_for_activity_outcomes (user_id activity_id : Z) (st : State) :
  let d := data st in
  let result := register_for_activity user_id activity_id st in
  (user_not_found ≠ activity_not_found ∧
   user_not_found ≠ already_registered ∧
   activity_not_found ≠ already_registered) ∧
  ( ( (∀ u, u ∈ users d → User.id u ≠ user_id) ∧
    result = (Ok user_not_found, st) )
  ∨ ( (∃ i u, find_user user_id d = Some (i, u)) ∧
      (∀ a, a ∈ activities d → Activity.id a ≠ activity_id) ∧
      result = (Ok activity_not_found, st) )
  ∨ ( ∃ i u j a, find_user user_id d = Some (i, u) ∧
        find_activity activity_id d = Some (j, a) ∧
        activity_id ∈ User.registered_activities u ∧
        result = (Ok already_registered, st) )
  ∨ ( ∃ i u j a st', find_user user_id d = Some (i, u) ∧
        find_activity activity_id d = Some (j, a) ∧
        (activity_id ∉ User.registered_activities u) ∧
        result = (Ok (success_prefix +:+ Activity.name a), st') ∧
        users (data st') !! i = Some (add_registration activity_id u) ∧
        User.registered_activities (add_registration activity_id u)
          = User.registered_activities u ++ [activity_id] ∧
        activities (data st') !! j = Some (add_participant user_id a) ∧
        Activity.participants (add_participant user_id a)
          = Activity.participants a ++ [user_id] ∧
        (∀ i' u', i' ≠ i → users d !! i' = Some u' → users (data st') !! i' = Some u') ∧
        (∀ j' a', j' ≠ j → activities d !! j' = Some a' →
                  activities (data st') !! j' = Some a') ∧
        disk st' = Document (data st') ∧
        success_prefix +:+ Activity.name a ≠ user_not_found ∧
        success_prefix +:+ Activity.name a ≠ activity_not_found ∧
        success_prefix +:+ Activity.name a ≠ already_registered ) ).
Proof.
  intros d result. split; [exact failures_are_distinct|].
  subst result. rewrite register_for_activity_eq. fold d.
  destruct (find_user user_id d) as [[i u]|] eqn:Hu.
  2:{ left. split; [by apply find_user_None|reflexivity]. }
  right.
  destruct (find_activity activity_id d) as [[j a]|] eqn:Ha.
  2:{ left. split; [eauto|]. split; [by apply find_activity_None|reflexivity]. }
  right. case_bool_decide as Hin.
  { left. exists i, u, j, a. auto. }
  right. exists i, u, j, a, (registered_state i j u a user_id activity_id st).
  apply find_user_Some in Hu as Hu'. destruct Hu' as (Hi & _ & _).
  apply find_activity_Some in Ha as Ha'. destruct Ha' as (Hj & _ & _).
  destruct (success_is_distinct (Activity.name a)) as (? & ? & ?).
  split_and!; try done; cbn.
  - apply list_lookup_insert_eq. by eapply lookup_lt_Some.
  - apply list_lookup_insert_eq. by eapply lookup_lt_Some.
  - intros i' u' Hne Hl. by rewrite list_lookup_insert_ne.
  - intros j' a' Hne Hl. by rewrite list_lookup_insert_ne.
Qed.

(** C5: with no stored user of that id, [register_for_activity] answers
    user-not-found and the whole state, the two collections and the saved
    document, is what it was. *)
Theorem register_unknown_user (user_id activity_id : Z) (st : State) :
  (∀ u, u ∈ users (data st) → User.id u ≠ user_id) →
  register_for_activity user_id activity_id st = (Ok user_not_found, st).
Proof.
  intros H. apply find_user_None in H.
  rewrite register_for_activity_eq, H. reflexivity.
Qed.

(** ** Reading *)

Section Reading.

Variable lower : string → string.
Variable strptime_weekday : string → option string.

Lemma match_loop_state user acts matched st :
  snd (match_loop lower strptime_weekday user acts matched st) = st.
Proof.
  revert matched. induction acts as [|a rest IH]; intros matched; [reflexivity|].
  cbn. unfold bind, weekday_name.
  destruct (strptime_weekday (Activity.date a)); [|reflexivity].
  cbn. destruct (_ && _); apply IH.
Qed.

(** C10: [match_activities], [list_activities] and [list_user_activities]
    leave the state, the two collections and the saved document, exactly as
    they found it, whatever their argument and whether they return or
    raise. *)
Theorem reads_leave_state (user_id : Z) (st : State) :
  snd (match_activities lower strptime_weekday user_id st) = st ∧
  snd (list_activities st) = st ∧
  snd (list_user_activities user_id st) = st.
Proof.
  split_and!.
  - unfold match_activities, bind, get_data.
    destruct (find_user user_id (data st)) as [[i u]|]; [|reflexivity].
    apply match_loop_state.
  - reflexivity.
  - unfold list_user_activities, bind, get_data.
    destruct (find_user user_id (data st)) as [[i u]|]; reflexivity.
Qed.

End Reading.

(** ** Matching *)

Lemma chinese_days_table d english :
  chinese_days !! d = Some english ↔ (d, english) ∈ chinese_day_table.
Proof.
  unfold chinese_days. symmetry. apply elem_of_list_to_map.
  apply (bool_decide_unpack _). vm_compute. exact I.
Qed.

(** The dict of the loop holds exactly the seven pairs of the
    specification. *)
Lemma chinese_days_label d english :
  chinese_days !! d = Some english ↔ label_day d english.
Proof.
  rewrite chinese_days_table. unfold chinese_day_table. split.
  - intros H.
    repeat (apply elem_of_cons in H as [H|H]; [injection H as -> ->; constructor|]).
    by apply elem_of_nil in H.
  - destruct 1; repeat first [apply list_elem_of_here | apply list_elem_of_further].
Qed.

Section MatchingRule.

Variable lower : string → string.
Variable strptime_weekday : string → option string.

(** The loop with its breaks finds a day exactly when one exists. *)
Lemma day_loop_spec weekday user :
  day_loop lower weekday (User.available_days user) = true
  ↔ day_match lower user weekday.
Proof.
  unfold day_match, ci_substring.
  induction (User.available_days user) as [|d rest IH]; cbn [day_loop].
  { split; [discriminate|]. intros (d & Hd & _). by apply elem_of_nil in Hd. }
  destruct (str_in (lower d) (lower weekday)) eqn:Hdirect.
  { split; [|reflexivity]. intros _. exists d. split; [apply list_elem_of_here|]. by left. }
  destruct (chinese_days !! d) as [english|] eqn:Hcn.
  - destruct (str_in (lower english) (lower weekday)) eqn:Hmapped.
    + split; [|reflexivity]. intros _. exists d. split; [apply list_elem_of_here|].
      right. exists english. by rewrite <- chinese_days_label.
    + rewrite IH. split.
      * intros (d' & Hd' & H). exists d'. split; [by apply list_elem_of_further|done].
      * intros (d' & Hd' & H). apply elem_of_cons in Hd' as [->|Hd']; [|by eauto].
        destruct H as [H|(e & He & H)]; [congruence|].
        apply chinese_days_label in He. congruence.
  - rewrite IH. split.
    + intros (d' & Hd' & H). exists d'. split; [by apply list_elem_of_further|done].
    + intros (d' & Hd' & H). apply elem_of_cons in Hd' as [->|Hd']; [|by eauto].
      destruct H as [H|(e & He & H)]; [congruence|].
      apply chinese_days_label in He. congruence.
Qed.

Lemma selected_spec user activity :
  selected lower strptime_weekday user activity = true
  ↔ is_match lower strptime_weekday user activity.
Proof.
  unfold selected, is_match, category_match, location_match,
    category_matched, location_matched.
  destruct (strptime_weekday (Activity.date activity)) as [w|].
  - rewrite andb_true_iff, orb_true_iff, !bool_decide_eq_true, day_loop_spec.
    split; [intros [? ?]; eauto|]. intros (w' & Hw & ? & ?). by simplify_eq.
  - split; [discriminate|]. intros (w' & Hw & _). discriminate.
Qed.

(** With every date convertible the loop is a filter of the collection. *)
Lemma match_loop_filter user acts matched st :
  (∀ a, a ∈ acts → is_Some (strptime_weekday (Activity.date a))) →
  match_loop lower strptime_weekday user acts matched st
  = (Ok (matched ++ filter (λ a, selected lower strptime_weekday user a = true) acts), st).
Proof.
  revert matched. induction acts as [|a rest IH]; intros matched Hvalid.
  { cbn. by rewrite app_nil_r. }
  destruct (Hvalid a) as [w Hw]; [apply list_elem_of_here|].
  assert (Hrest : ∀ x, x ∈ rest → is_Some (strptime_weekday (Activity.date x)))
    by (intros x Hx; apply Hvalid; by apply list_elem_of_further).
  cbn -[filter]. unfold bind, weekday_name. rewrite Hw. cbn -[filter].
  assert (Hsel : selected lower strptime_weekday user a
                 = day_loop lower w (User.available_days user)
                   && (category_matched user a || location_matched user a))
    by (unfold selected; by rewrite Hw).
  rewrite filter_cons, <- Hsel.
  destruct (selected lower strptime_weekday user a).
  - rewrite decide_True by done. rewrite IH by done. by rewrite <- app_assoc.
  - rewrite decide_False by done. by apply IH.
Qed.

(** One date that does not convert stops the loop with the exception. *)
Lemma match_loop_raises user acts matched st :
  (∃ a, a ∈ acts ∧ strptime_weekday (Activity.date a) = None) →
  match_loop lower strptime_weekday user acts matched st = (Raise ValueError, st).
Proof.
  revert matched. induction acts as [|a rest IH]; intros matched (bad & Hin & Hbad).
  { by apply elem_of_nil in Hin. }
  cbn. unfold bind, weekday_name.
  destruct (strptime_weekday (Activity.date a)) as [w|] eqn:Hw; [|reflexivity].
  apply elem_of_cons in Hin as [->|Hin]; [congruence|].
  cbn. destruct (_ && _); apply IH; eauto.
Qed.

End MatchingRule.

Section MatchingClaims.

Variable lower : string → string.
Variable strptime_weekday : string → option string.

(** With unique ids the lookup by the id of a stored user finds that user. *)
Lemma find_user_unique d u :
  NoDup (User.id <$> users d) → u ∈ users d →
  ∃ i, find_user (User.id u) d = Some (i, u).
Proof.
  intros Hnd Hin.
  destruct (list_find_elem_of (λ x, User.id x = User.id u) (users d) u Hin eq_refl)
    as [[i u0] Hfind].
  exists i. unfold find_user. rewrite Hfind.
  apply list_find_Some in Hfind as (Hi & Hid & _).
  apply list_elem_of_lookup in Hin as [k Hk].
  assert (i = k) as ->.
  { eapply NoDup_lookup; [exact Hnd| |].
    - rewrite list_lookup_fmap, Hi. cbn. by rewrite Hid.
    - by rewrite list_lookup_fmap, Hk. }
  congruence.
Qed.

(** C1: for a stored user [u], in a store with unique user ids and dates
    that all convert, [match_activities(u.id)] returns a list that holds an
    activity exactly when the activity is stored, some entry of
    [u.available_days] appears, case ignored, in the weekday name of its
    date, directly or, for one of the seven labels 周一, ..., 周日, through
    the English name Monday, ..., Sunday that the label stands for
    ([label_day]), and its category is one of [u.preferred_categories] or
    its location is [u.location]; the list is a subsequence of the
    activities collection, so it keeps the insertion order. *)
Theorem match_activities_rule (st : State) (u : User.t) :
  u ∈ users (data st) →
  NoDup (User.id <$> users (data st)) →
  dates_valid strptime_weekday (data st) →
  ∃ l, match_activities lower strptime_weekday (User.id u) st = (Ok l, st) ∧
       (∀ a, a ∈ l ↔ a ∈ activities (data st) ∧ is_match lower strptime_weekday u a) ∧
       sublist l (activities (data st)).
Proof.
  intros Hin Hnd Hvalid.
  destruct (find_user_unique _ _ Hnd Hin) as [i Hfind].
  exists (filter (λ a, selected lower strptime_weekday u a = true) (activities (data st))).
  split_and!.
  - unfold match_activities, bind, get_data. rewrite Hfind.
    by rewrite match_loop_filter.
  - intros a. rewrite list_elem_of_filter, selected_spec. tauto.
  - apply sublist_filter.
Qed.

(** C9: for a stored user, one stored activity whose date does not convert
    makes [match_activities] raise the [ValueError] of the conversion; when
    every stored date converts, it returns a list. *)
Theorem bad_date_surfaces (st : State) (u : User.t) :
  u ∈ users (data st) →
  ((∃ a, a ∈ activities (data st) ∧ strptime_weekday (Activity.date a) = None) →
   match_activities lower strptime_weekday (User.id u) st = (Raise ValueError, st))
  ∧ (dates_valid strptime_weekday (data st) →
     ∃ l, match_activities lower strptime_weekday (User.id u) st = (Ok l, st)).
Proof.
  intros Hin.
  destruct (list_find_elem_of (λ x, User.id x = User.id u) (users (data st)) u Hin eq_refl)
    as [[i u0] Hfind].
  unfold match_activities, bind, get_data, find_user. rewrite Hfind. split.
  - apply match_loop_raises.
  - intros Hvalid. eexists. by apply match_loop_filter.
Qed.

End MatchingClaims.

(** The example of the specification, run: day and category, day and
    location are kept; day alone and category and location without the day
    are not. *)
Example match_sample :
  match_activities Runtime.lower Runtime.strptime_weekday 1 Sample.state
  = (Ok [Sample.planting; Sample.library], Sample.state).
Proof. vm_compute. reflexivity. Qed.

Example match_sample_bad_date :
  match_activities Runtime.lower Runtime.strptime_weekday 1 Sample.bad_state
  = (Raise ValueError, Sample.bad_state).
Proof. vm_compute. reflexivity. Qed.

Lemma sample_dates_valid : dates_valid Runtime.strptime_weekday Sample.store.
Proof.
  intros a Ha. cbn in Ha.
  repeat (apply elem_of_cons in Ha as [->|Ha]; [by eexists|]).
  by apply elem_of_nil in Ha.
Defined.

(** The example of the specification under the rule: free on 周三, the
    planting on a Wednesday, in the preferred category and another
    region. *)
Lemma sample_planting_matches :
  is_match Runtime.lower Runtime.strptime_weekday Sample.user1 Sample.planting.
Proof.
  exists "Wednesday". split_and!.
  - reflexivity.
  - exists "周三". split; [apply list_elem_of_here|].
    right. exists "Wednesday". split; [constructor|reflexivity].
  - left. apply list_elem_of_here.
Defined.

Lemma match_activities_rule_witness :
  ∃ l, match_activities Runtime.lower Runtime.strptime_weekday 1 Sample.state
       = (Ok l, Sample.state) ∧
       (∀ a, a ∈ l ↔ a ∈ activities Sample.store ∧
                     is_match Runtime.lower Runtime.strptime_weekday Sample.user1 a) ∧
       sublist l (activities Sample.store) ∧
       Sample.planting ∈ l.
Proof.
  destruct (match_activities_rule Runtime.lower Runtime.strptime_weekday
              Sample.state Sample.user1) as (l & Hrun & Hrule & Horder).
  - apply list_elem_of_here.
  - apply (bool_decide_unpack _). vm_compute. exact I.
  - exact sample_dates_valid.
  - exists l. split_and!; [exact Hrun|exact Hrule|exact Horder|].
    apply Hrule. split; [apply list_elem_of_here|exact sample_planting_matches].
Defined.

Lemma bad_date_surfaces_witness :
  match_activities Runtime.lower Runtime.strptime_weekday 1 Sample.bad_state
  = (Raise ValueError, Sample.bad_state)
  ∧ (∃ l, match_activities Runtime.lower Runtime.strptime_weekday 1 Sample.state
          = (Ok l, Sample.state)).
Proof.
  split.
  - apply (bad_date_surfaces Runtime.lower Runtime.strptime_weekday
             Sample.bad_state Sample.user1).
    + apply list_elem_of_here.
    + exists Sample.misdated. split; [|reflexivity].
      cbn. do 4 apply list_elem_of_further. apply list_elem_of_here.
  - apply (bad_date_surfaces Runtime.lower Runtime.strptime_weekday
             Sample.state Sample.user1).
    + apply list_elem_of_here.
    + exact sample_dates_valid.
Defined.

(** ** What each call does to the state *)

Lemma add_activity_eq n c l dt t ds st :
  add_activity n c l dt t ds st =
  let a := Activity.mk (Z.of_nat (length (activities (data st))) + 1) n c l dt t ds [] in
  let d' := mkStore (users (data st)) (activities (data st) ++ [a]) in
  (Ok a, mkState d' (Document d')).
Proof. reflexivity. Qed.

Lemma register_user_eq n l pc ad st :
  register_user n l pc ad st =
  let u := User.mk (Z.of_nat (length (users (data st))) + 1) n l pc ad [] in
  let d' := mkStore (users (data st) ++ [u]) (activities (data st)) in
  (Ok u, mkState d' (Document d')).
Proof. reflexivity. Qed.

Lemma remove_first_absent x l : x ∉ l → remove_first x l = l.
Proof.
  induction l as [|y r IH]; [done|]. rewrite not_elem_of_cons. intros [Hne Hr].
  cbn. rewrite bool_decide_eq_false_2 by congruence. by rewrite IH.
Qed.

Lemma set_registered_same u : set_registered (User.registered_activities u) u = u.
Proof. by destruct u. Qed.

Lemma set_participants_same a : set_participants (Activity.participants a) a = a.
Proof. by destruct a. Qed.

(** The state that the cancel handler leaves. *)
Lemma unregister_from_activity_eq user_id k st a i u :
  activities (data st) !! k = Some a →
  find_user user_id (data st) = Some (i, u) →
  unregister_from_activity user_id k st =
  let u' := set_registered (remove_first (Activity.id a) (User.registered_activities u)) u in
  let a' := set_participants (remove_first user_id (Activity.participants a)) a in
  let d' := mkStore (<[i := u']> (users (data st))) (<[k := a']> (activities (data st))) in
  (Ok (cancel_prefix +:+ Activity.name a), mkState d' (Document d')).
Proof.
  intros Hk Hfind. apply find_user_Some in Hfind as Hu. destruct Hu as (Hi & _ & _).
  unfold unregister_from_activity, bind, get_data. rewrite Hk, Hfind.
  destruct st as [[us acts] f]. cbn in Hk, Hi.
  case_bool_decide as Hreg; case_bool_decide as Hpart; cbn.
  - reflexivity.
  - rewrite (remove_first_absent _ _ Hpart), set_participants_same.
    by rewrite (list_insert_id _ _ _ Hk).
  - rewrite (remove_first_absent _ _ Hreg), set_registered_same.
    by rewrite (list_insert_id _ _ _ Hi).
  - rewrite (remove_first_absent _ _ Hpart), set_participants_same.
    rewrite (remove_first_absent _ _ Hreg), set_registered_same.
    by rewrite (list_insert_id _ _ _ Hk), (list_insert_id _ _ _ Hi).
Qed.

(** Rewriting a position with a record of the same id keeps the ids. *)
Lemma insert_same_key {A} (f : A → Z) (l : list A) i x x' :
  l !! i = Some x → f x' = f x → f <$> <[i := x']> l = f <$> l.
Proof.
  intros Hi Hf. rewrite list_fmap_insert, Hf.
  apply list_insert_id. by rewrite list_lookup_fmap, Hi.
Qed.

(** The handler raises, and changes nothing, without its activity or its
    user. *)
Lemma unregister_from_activity_raises user_id k st :
  activities (data st) !! k = None ∨ find_user user_id (data st) = None →
  ∃ e, unregister_from_activity user_id k st = (Raise e, st).
Proof.
  unfold unregister_from_activity, bind, get_data.
  destruct (activities (data st) !! k) as [a|]; [|by eexists].
  intros [?|Hu]; [done|]. rewrite Hu. by eexists.
Qed.

(** ** Ids *)

Lemma step_user_ids c st :
  user_ids (data (step c st)) =
  user_ids (data st) ++
  (if creates_user c then [Z.of_nat (length (users (data st))) + 1] else []).
Proof.
  unfold user_ids. destruct c as [n c l dt t ds|n l pc ad|uid aid|uid k]; cbn [step creates_user].
  - rewrite add_activity_eq. cbn. by rewrite app_nil_r.
  - rewrite register_user_eq. cbn. by rewrite fmap_app.
  - rewrite register_for_activity_eq, app_nil_r.
    destruct (find_user uid (data st)) as [[i u]|] eqn:Hu; [|done].
    destruct (find_activity aid (data st)) as [[j a]|] eqn:Ha; [|done].
    case_bool_decide; [done|]. cbn.
    apply find_user_Some in Hu as (Hi & _). by eapply insert_same_key.
  - rewrite app_nil_r.
    destruct (activities (data st) !! k) as [a|] eqn:Hk.
    2:{ destruct (unregister_from_activity_raises uid k st) as [e ->]; auto. }
    destruct (find_user uid (data st)) as [[i u]|] eqn:Hu.
    2:{ destruct (unregister_from_activity_raises uid k st) as [e ->]; auto. }
    rewrite (unregister_from_activity_eq uid k st a i u Hk Hu). cbn.
    apply find_user_Some in Hu as (Hi & _). by eapply insert_same_key.
Qed.

Lemma step_activity_ids c st :
  activity_ids (data (step c st)) =
  activity_ids (data st) ++
  (if creates_activity c then [Z.of_nat (length (activities (data st))) + 1] else []).
Proof.
  unfold activity_ids.
  destruct c as [n c l dt t ds|n l pc ad|uid aid|uid k]; cbn [step creates_activity].
  - rewrite add_activity_eq. cbn. by rewrite fmap_app.
  - rewrite register_user_eq. cbn. by rewrite app_nil_r.
  - rewrite register_for_activity_eq, app_nil_r.
    destruct (find_user uid (data st)) as [[i u]|] eqn:Hu; [|done].
    destruct (find_activity aid (data st)) as [[j a]|] eqn:Ha; [|done].
    case_bool_decide; [done|]. cbn.
    apply find_activity_Some in Ha as (Hj & _). by eapply insert_same_key.
  - rewrite app_nil_r.
    destruct (activities (data st) !! k) as [a|] eqn:Hk.
    2:{ destruct (unregister_from_activity_raises uid k st) as [e ->]; auto. }
    destruct (find_user uid (data st)) as [[i u]|] eqn:Hu.
    2:{ destruct (unregister_from_activity_raises uid k st) as [e ->]; auto. }
    rewrite (unregister_from_activity_eq uid k st a i u Hk Hu). cbn.
    by eapply insert_same_key.
Qed.

Lemma run_cons c cs st : run (c :: cs) st = run cs (step c st).
Proof. reflexivity. Qed.

Lemma count_calls_cons p c cs :
  count_calls p (c :: cs) = ((if p c then 1 else 0) + count_calls p cs)%nat.
Proof.
  unfold count_calls. rewrite filter_cons.
  destruct (p c); [rewrite decide_True by done|rewrite decide_False by done]; done.
Qed.

Lemma run_user_ids cs st :
  user_ids (data (run cs st)) =
  user_ids (data st)
  ++ seqZ (Z.of_nat (length (users (data st))) + 1) (Z.of_nat (count_calls creates_user cs)).
Proof.
  revert st. induction cs as [|c cs IH]; intros st.
  { cbn. by rewrite app_nil_r. }
  rewrite run_cons, IH, step_user_ids, count_calls_cons.
  assert (Hlen : length (users (data (step c st)))
                 = (length (users (data st)) + (if creates_user c then 1 else 0))%nat).
  { rewrite <- !(length_fmap User.id). fold (user_ids (data (step c st))).
    rewrite step_user_ids, length_app. unfold user_ids. by destruct (creates_user c). }
  rewrite Hlen. destruct (creates_user c).
  - rewrite <- app_assoc. f_equal.
    rewrite (seqZ_cons _ (Z.of_nat (1 + _))) by lia. cbn [app]. f_equal. f_equal; lia.
  - rewrite app_nil_r. repeat f_equal; lia.
Qed.

Lemma run_activity_ids cs st :
  activity_ids (data (run cs st)) =
  activity_ids (data st)
  ++ seqZ (Z.of_nat (length (activities (data st))) + 1)
          (Z.of_nat (count_calls creates_activity cs)).
Proof.
  revert st. induction cs as [|c cs IH]; intros st.
  { cbn. by rewrite app_nil_r. }
  rewrite run_cons, IH, step_activity_ids, count_calls_cons.
  assert (Hlen : length (activities (data (step c st)))
                 = (length (activities (data st)) + (if creates_activity c then 1 else 0))%nat).
  { rewrite <- !(length_fmap Activity.id). fold (activity_ids (data (step c st))).
    rewrite step_activity_ids, length_app. unfold activity_ids.
    by destruct (creates_activity c). }
  rewrite Hlen. destruct (creates_activity c).
  - rewrite <- app_assoc. f_equal.
    rewrite (seqZ_cons _ (Z.of_nat (1 + _))) by lia. cbn [app]. f_equal. f_equal; lia.
  - rewrite app_nil_r. repeat f_equal; lia.
Qed.

Lemma seqZ_increasing m n : StronglySorted Z.lt (seqZ m n).
Proof.
  remember (Z.to_nat n) as k eqn:Hk. revert m n Hk.
  induction k as [|k IH]; intros m n Hk.
  { rewrite seqZ_nil by lia. constructor. }
  rewrite seqZ_cons by lia. constructor.
  - apply IH. lia.
  - apply Forall_seqZ. lia.
Qed.

(** C7: in every sequence of calls, from every state, each [register_user]
    and each [add_activity] gives its record the number of records of that
    kind present at the call, plus one; the ids of the records that were
    there are kept; and the ids given by the sequence are, within each
    collection, strictly increasing in the order of creation and pairwise
    different. *)
Theorem created_ids (cs : list Call) (st : State) :
  let d := data st in
  let d' := data (run cs st) in
  let n := length (users d) in
  let m := length (activities d) in
  (∀ nm l pc ad, ∃ u st',
      register_user nm l pc ad st = (Ok u, st') ∧
      User.id u = Z.of_nat n + 1 ∧ users (data st') = users d ++ [u]) ∧
  (∀ nm c l dt t ds, ∃ a st',
      add_activity nm c l dt t ds st = (Ok a, st') ∧
      Activity.id a = Z.of_nat m + 1 ∧ activities (data st') = activities d ++ [a]) ∧
  take n (user_ids d') = user_ids d ∧
  take m (activity_ids d') = activity_ids d ∧
  (∀ k i, drop n (user_ids d') !! k = Some i → i = Z.of_nat (n + k) + 1) ∧
  (∀ k i, drop m (activity_ids d') !! k = Some i → i = Z.of_nat (m + k) + 1) ∧
  StronglySorted Z.lt (drop n (user_ids d')) ∧
  NoDup (drop n (user_ids d')) ∧
  StronglySorted Z.lt (drop m (activity_ids d')) ∧
  NoDup (drop m (activity_ids d')).
Proof.
  intros d d' n m. subst d'.
  assert (Hn : n = length (user_ids d)) by (unfold user_ids; by rewrite length_fmap).
  assert (Hm : m = length (activity_ids d)) by (unfold activity_ids; by rewrite length_fmap).
  rewrite run_user_ids, run_activity_ids. fold d n m.
  rewrite (take_app_length' _ _ _ Hn), (take_app_length' _ _ _ Hm).
  rewrite (drop_app_length' _ _ _ Hn), (drop_app_length' _ _ _ Hm).
  split_and!.
  - intros. rewrite register_user_eq. cbn. eauto.
  - intros. rewrite add_activity_eq. cbn. eauto.
  - done.
  - done.
  - intros k i Hk. apply lookup_seqZ in Hk. lia.
  - intros k i Hk. apply lookup_seqZ in Hk. lia.
  - apply seqZ_increasing.
  - apply NoDup_seqZ.
  - apply seqZ_increasing.
  - apply NoDup_seqZ.
Qed.

(** From the empty document the ids are 1, 2, 3, ... in each collection. *)
Corollary ids_from_empty (cs : list Call) (f : File) :
  let d' := data (run cs (mkState empty_document f)) in
  user_ids d' = seqZ 1 (Z.of_nat (length (users d'))) ∧
  activity_ids d' = seqZ 1 (Z.of_nat (length (activities d'))).
Proof.
  cbn zeta.
  pose proof (run_user_ids cs (mkState empty_document f)) as Hu.
  pose proof (run_activity_ids cs (mkState empty_document f)) as Ha.
  cbn in Hu, Ha. split.
  - rewrite <- (length_fmap User.id). fold (user_ids (data (run cs (mkState empty_document f)))).
    rewrite Hu at 2. by rewrite length_seqZ, Nat2Z.id.
  - rewrite <- (length_fmap Activity.id).
    fold (activity_ids (data (run cs (mkState empty_document f)))).
    rewrite Ha at 2. by rewrite length_seqZ, Nat2Z.id.
Qed.

(** ** Lists of ids *)

Lemma remove_first_subset x y l : y ∈ remove_first x l → y ∈ l.
Proof.
  induction l as [|z r IH]; cbn; [done|].
  case_bool_decide; rewrite !elem_of_cons; intuition.
Qed.

Lemma remove_first_other x y l : y ≠ x → y ∈ remove_first x l ↔ y ∈ l.
Proof.
  intros Hne. induction l as [|z r IH]; cbn; [done|].
  case_bool_decide; rewrite !elem_of_cons; [|by rewrite IH].
  split; [auto|]. intros [?|?]; [congruence|done].
Qed.

Lemma remove_first_NoDup x l :
  NoDup l → NoDup (remove_first x l) ∧ x ∉ remove_first x l.
Proof.
  induction 1 as [|z r Hz Hr IH]; cbn.
  { split; [constructor|]. apply not_elem_of_nil. }
  destruct IH as [IH1 IH2]. case_bool_decide as Hzx.
  - subst. done.
  - split.
    + constructor; [|done]. intros Hin. by apply remove_first_subset in Hin.
    + rewrite elem_of_cons. intros [?|?]; [congruence|done].
Qed.

Lemma occurrences_cons x y l :
  occurrences x (y :: l) = ((if bool_decide (y = x) then 1 else 0) + occurrences x l)%nat.
Proof.
  unfold occurrences. rewrite filter_cons.
  case_bool_decide; [rewrite decide_True by done|rewrite decide_False by done]; done.
Qed.

Lemma occurrences_app x l k :
  occurrences x (l ++ k) = (occurrences x l + occurrences x k)%nat.
Proof. unfold occurrences. by rewrite filter_app, length_app. Qed.

Lemma occurrences_zero x l : occurrences x l = 0%nat ↔ x ∉ l.
Proof.
  induction l as [|y r IH]; [split; [intros _; apply not_elem_of_nil|done]|].
  rewrite occurrences_cons, not_elem_of_cons.
  case_bool_decide; [|rewrite <- IH]; intuition (try congruence; try lia).
Qed.

(** [l.remove(x)] takes out one occurrence of [x], and only of [x]. *)
Lemma occurrences_remove_first x y l :
  occurrences y (remove_first x l)
  = if bool_decide (y = x) then pred (occurrences y l) else occurrences y l.
Proof.
  induction l as [|z r IH]; cbn [remove_first].
  { by case_bool_decide. }
  rewrite occurrences_cons.
  destruct (decide (z = x)) as [->|Hzx].
  - rewrite bool_decide_eq_true_2 by done.
    destruct (decide (y = x)) as [->|Hyx].
    + by rewrite !bool_decide_eq_true_2.
    + rewrite !(bool_decide_eq_false_2 (y = x)) by done.
      by rewrite bool_decide_eq_false_2 by congruence.
  - rewrite (bool_decide_eq_false_2 (z = x)) by done.
    rewrite occurrences_cons, IH.
    destruct (decide (y = x)) as [->|Hyx].
    + rewrite !(bool_decide_eq_true_2 (x = x)) by done.
      by rewrite bool_decide_eq_false_2 by done.
    + by rewrite !(bool_decide_eq_false_2 (y = x)) by done.
Qed.

Lemma NoDup_occurrences x l : NoDup l → (occurrences x l ≤ 1)%nat.
Proof.
  induction 1 as [|y r Hy Hr IH]; [cbn; lia|].
  rewrite occurrences_cons. case_bool_decide; [subst|lia].
  apply occurrences_zero in Hy. lia.
Qed.

(** ** Collections keyed by id *)

Section Keyed.

Context {A : Type} (key : A → Z).

Lemma keyed_position (l : list A) i j x y :
  NoDup (key <$> l) → l !! i = Some x → l !! j = Some y → key x = key y → i = j.
Proof.
  intros Hnd Hi Hj Hk. eapply NoDup_lookup; [exact Hnd| |].
  - by rewrite list_lookup_fmap, Hi.
  - rewrite list_lookup_fmap, Hj. cbn. by rewrite Hk.
Qed.

(** The members of a collection after one position was rewritten. *)
Lemma elem_of_rewritten (l : list A) i x x' y :
  NoDup (key <$> l) → l !! i = Some x →
  y ∈ <[i := x']> l → y = x' ∨ (y ∈ l ∧ key y ≠ key x).
Proof.
  intros Hnd Hi Hy. apply list_elem_of_lookup in Hy as [k Hk].
  apply list_lookup_insert_Some in Hk as [(-> & -> & _)|[Hne Hk]]; [by left|].
  right. split; [by eapply list_elem_of_lookup_2|].
  intros Heq. apply Hne. by eapply keyed_position.
Qed.

(** The lookup by id finds the rewritten record at the same position. *)
Lemma find_rewritten (l : list A) k i x x' :
  list_find (λ y, key y = k) l = Some (i, x) → key x' = k →
  list_find (λ y, key y = k) (<[i := x']> l) = Some (i, x').
Proof.
  intros (Hi & Hx & Hfirst)%list_find_Some Hx'. apply list_find_Some. split_and!.
  - apply list_lookup_insert_eq. by eapply lookup_lt_Some.
  - done.
  - intros j y Hj Hlt. rewrite list_lookup_insert_ne in Hj by lia. by eapply Hfirst.
Qed.

End Keyed.

(** ** The registration link stays consistent *)

Lemma registered_state_consistent user_id activity_id st i u j a :
  consistent (data st) →
  find_user user_id (data st) = Some (i, u) →
  find_activity activity_id (data st) = Some (j, a) →
  activity_id ∉ User.registered_activities u →
  consistent (data (registered_state i j u a user_id activity_id st)).
Proof.
  intros ((Hnu & Hna) & (Hdu & Hda) & Hsym) Hu Ha Hnot.
  apply find_user_Some in Hu as (Hi & Hidu & _).
  apply find_activity_Some in Ha as (Hj & Hida & _).
  assert (Huin : u ∈ users (data st)) by by eapply list_elem_of_lookup_2.
  assert (Hain : a ∈ activities (data st)) by by eapply list_elem_of_lookup_2.
  assert (Hnp : user_id ∉ Activity.participants a).
  { intros Hin. apply Hnot. subst. by apply (Hsym u a). }
  unfold consistent, unique_ids, duplicate_free; cbn; split_and!.
  - by rewrite (insert_same_key User.id _ _ u).
  - by rewrite (insert_same_key Activity.id _ _ a).
  - intros x Hx.
    destruct (elem_of_rewritten User.id _ _ u _ x Hnu Hi Hx) as [->|[Hx' _]]; auto.
    cbn. apply NoDup_app. split_and!; [by apply Hdu| |apply NoDup_singleton].
    intros y Hy ->%list_elem_of_singleton. done.
  - intros x Hx.
    destruct (elem_of_rewritten Activity.id _ _ a _ x Hna Hj Hx) as [->|[Hx' _]]; auto.
    cbn. apply NoDup_app. split_and!; [by apply Hda| |apply NoDup_singleton].
    intros y Hy ->%list_elem_of_singleton. done.
  - intros x y Hx Hy. cbn in Hx, Hy.
    destruct (elem_of_rewritten User.id _ _ u _ x Hnu Hi Hx) as [->|[Hx' Hxk]];
    destruct (elem_of_rewritten Activity.id _ _ a _ y Hna Hj Hy) as [->|[Hy' Hyk]];
    cbn; rewrite ?elem_of_app, ?list_elem_of_singleton.
    + split; auto.
    + rewrite <- (Hsym u y Huin Hy'). subst. intuition congruence.
    + rewrite (Hsym x a Hx' Hain). subst. intuition congruence.
    + by apply Hsym.
Qed.

Lemma unregistered_state_consistent user_id k st a i u :
  consistent (data st) →
  activities (data st) !! k = Some a →
  find_user user_id (data st) = Some (i, u) →
  consistent (data (snd (unregister_from_activity user_id k st))).
Proof.
  intros ((Hnu & Hna) & (Hdu & Hda) & Hsym) Hk Hu.
  rewrite (unregister_from_activity_eq _ _ _ _ _ _ Hk Hu).
  apply find_user_Some in Hu as (Hi & Hidu & _).
  assert (Huin : u ∈ users (data st)) by by eapply list_elem_of_lookup_2.
  assert (Hain : a ∈ activities (data st)) by by eapply list_elem_of_lookup_2.
  destruct (remove_first_NoDup (Activity.id a) _ (Hdu u Huin)) as [Hru Hru'].
  destruct (remove_first_NoDup user_id _ (Hda a Hain)) as [Hra Hra'].
  unfold consistent, unique_ids, duplicate_free; cbn; split_and!.
  - by rewrite (insert_same_key User.id _ _ u).
  - by rewrite (insert_same_key Activity.id _ _ a).
  - intros x Hx. apply (elem_of_rewritten User.id _ _ u) in Hx as [->|[Hx _]]; auto.
  - intros x Hx. apply (elem_of_rewritten Activity.id _ _ a) in Hx as [->|[Hx _]]; auto.
  - intros x y Hx Hy. cbn in Hx, Hy.
    destruct (elem_of_rewritten User.id _ _ u _ x Hnu Hi Hx) as [->|[Hx' Hxk]];
    destruct (elem_of_rewritten Activity.id _ _ a _ y Hna Hk Hy) as [->|[Hy' Hyk]];
    cbn.
    + subst. tauto.
    + rewrite remove_first_other by done. by apply Hsym.
    + rewrite remove_first_other by (subst; done). by apply Hsym.
    + by apply Hsym.
Qed.

Lemma step_consistent c st :
  is_registration c = true → consistent (data st) → consistent (data (step c st)).
Proof.
  destruct c as [| |uid aid|uid k]; [discriminate..| |]; intros _ Hc; cbn [step].
  - rewrite register_for_activity_eq.
    destruct (find_user uid (data st)) as [[i u]|] eqn:Hu; [|done].
    destruct (find_activity aid (data st)) as [[j a]|] eqn:Ha; [|done].
    case_bool_decide; [done|]. by apply registered_state_consistent.
  - destruct (activities (data st) !! k) as [a|] eqn:Hk.
    2:{ destruct (unregister_from_activity_raises uid k st) as [e ->]; auto. }
    destruct (find_user uid (data st)) as [[i u]|] eqn:Hu.
    2:{ destruct (unregister_from_activity_raises uid k st) as [e ->]; auto. }
    by eapply unregistered_state_consistent.
Qed.

(** C2, amended: from a store with unique user ids and unique activity
    ids, in which no list of registered activities and no list of
    participants names an id twice, and which is symmetric, every sequence
    of [register_for_activity] and cancel calls leaves a store of the same
    kind; in particular, for every stored user [u] and activity [a], [a.id]
    is in [u.registered_activities] exactly when [u.id] is in
    [a.participants].  A sequence of one call is the case of a single
    operation. *)
Theorem registrations_keep_symmetry (cs : list Call) (st : State) :
  unique_ids (data st) → duplicate_free (data st) → symmetric (data st) →
  forallb is_registration cs = true →
  symmetric (data (run cs st)) ∧
  unique_ids (data (run cs st)) ∧ duplicate_free (data (run cs st)).
Proof.
  intros Hu Hd Hs Hcs.
  assert (Hc : consistent (data st)) by done. clear Hu Hd Hs.
  enough (consistent (data (run cs st))) as (? & ? & ?) by done.
  revert st Hc. induction cs as [|c cs IH]; intros st Hc; [done|].
  cbn in Hcs. apply andb_true_iff in Hcs as [Hreg Hcs].
  rewrite run_cons. apply IH; [done|]. by apply step_consistent.
Qed.

(** Members of a list written out. *)
Ltac members :=
  repeat match goal with
         | H : _ ∈ _ :: _ |- _ => apply elem_of_cons in H as [->|H]
         | H : _ ∈ [] |- _ => by apply elem_of_nil in H
         end.

Lemma sample_consistent :
  unique_ids Sample.store ∧ duplicate_free Sample.store ∧ symmetric Sample.store.
Proof.
  split_and!.
  - split; apply (bool_decide_unpack _); vm_compute; exact I.
  - split; intros x Hx; cbn in Hx; members; constructor.
  - intros x y Hx Hy; cbn in Hx, Hy; members; cbn;
      split; intros H; by apply elem_of_nil in H.
Defined.

Lemma registrations_keep_symmetry_witness :
  let cs := [Register 1 1; Register 1 2; Unregister 1 0%nat; Register 1 1] in
  symmetric (data (run cs Sample.state)) ∧
  unique_ids (data (run cs Sample.state)) ∧
  duplicate_free (data (run cs Sample.state)).
Proof.
  apply (registrations_keep_symmetry _ Sample.state).
  - exact (proj1 sample_consistent).
  - exact (proj1 (proj2 sample_consistent)).
  - exact (proj2 (proj2 sample_consistent)).
  - reflexivity.
Defined.

(** C2 as stated fails: the store [Sample.dup_store] has unique ids and is
    symmetric, and after one cancel call the user still lists activity 1
    while the activity no longer lists the user. *)
Lemma symmetry_lost_with_duplicates :
  unique_ids Sample.dup_store ∧
  symmetric (data Sample.dup_state) ∧
  forallb is_registration [Unregister 1 0%nat] = true ∧
  ¬ symmetric (data (run [Unregister 1 0%nat] Sample.dup_state)).
Proof.
  split_and!.
  - split; apply (bool_decide_unpack _); vm_compute; exact I.
  - intros x y Hx Hy; cbn in Hx, Hy; members; cbn.
    split; intros _; [apply list_elem_of_here|apply list_elem_of_here].
  - reflexivity.
  - intros Hsym.
    assert (Hu : set_registered [1] Sample.dup_user
                 ∈ users (data (run [Unregister 1 0%nat] Sample.dup_state)))
      by (vm_compute; apply list_elem_of_here).
    assert (Ha : set_participants [] Sample.dup_activity
                 ∈ activities (data (run [Unregister 1 0%nat] Sample.dup_state)))
      by (vm_compute; apply list_elem_of_here).
    destruct (Hsym _ _ Hu Ha) as [H _]. cbn in H.
    specialize (H (list_elem_of_here _ _)). by apply elem_of_nil in H.
Qed.

(** ** Cancelling *)

(** A cancel that found nothing left to remove leaves the state of the
    cancel before it. *)
Lemma unregister_again user_id k st a i u :
  activities (data st) !! k = Some a →
  find_user user_id (data st) = Some (i, u) →
  Activity.id a ∉ remove_first (Activity.id a) (User.registered_activities u) →
  user_id ∉ remove_first user_id (Activity.participants a) →
  unregister_from_activity user_id k (snd (unregister_from_activity user_id k st))
  = (Ok (cancel_prefix +:+ Activity.name a), snd (unregister_from_activity user_id k st)).
Proof.
  intros Hk Hu Hnr Hnp.
  rewrite (unregister_from_activity_eq _ _ _ _ _ _ Hk Hu). cbn [snd].
  set (u' := set_registered _ u). set (a' := set_participants _ a).
  set (st' := mkState _ _).
  apply find_user_Some in Hu as Hu0. destruct Hu0 as (Hi & Hid & _).
  assert (Hk' : activities (data st') !! k = Some a').
  { cbn. apply list_lookup_insert_eq. by eapply lookup_lt_Some. }
  assert (Hu' : find_user user_id (data st') = Some (i, u')).
  { unfold find_user in *. cbn. eapply (find_rewritten User.id); [exact Hu|done]. }
  rewrite (unregister_from_activity_eq _ _ _ _ _ _ Hk' Hu').
  cbn zeta.
  change (Activity.id a') with (Activity.id a).
  change (Activity.name a') with (Activity.name a).
  change (User.registered_activities u')
    with (remove_first (Activity.id a) (User.registered_activities u)).
  change (Activity.participants a')
    with (remove_first user_id (Activity.participants a)).
  rewrite (remove_first_absent _ _ Hnr), (remove_first_absent _ _ Hnp).
  change (set_registered _ u') with u'. change (set_participants _ a') with a'.
  unfold st'. cbn [data users activities].
  rewrite !list_insert_insert_eq. reflexivity.
Qed.

(** C6, amended: for a stored user and a stored activity the cancel handler
    returns normally, takes the first occurrence of the activity id out of
    the user's list if there is one and the first occurrence of the user id
    out of the participants if there is one, leaves every other record as
    it was, and saves.  Each list loses one occurrence at most.  When
    neither list named the id more than once, the id is in neither list
    afterwards and a second cancel leaves the state as the first left it. *)
Theorem unregister_removes (user_id : Z) (k : nat) (st : State)
    (a : Activity.t) (i : nat) (u : User.t) :
  activities (data st) !! k = Some a →
  find_user user_id (data st) = Some (i, u) →
  let registered' := remove_first (Activity.id a) (User.registered_activities u) in
  let participants' := remove_first user_id (Activity.participants a) in
  ∃ st',
    unregister_from_activity user_id k st = (Ok (cancel_prefix +:+ Activity.name a), st') ∧
    users (data st') = <[i := set_registered registered' u]> (users (data st)) ∧
    activities (data st') = <[k := set_participants participants' a]> (activities (data st)) ∧
    disk st' = Document (data st') ∧
    occurrences (Activity.id a) registered'
      = pred (occurrences (Activity.id a) (User.registered_activities u)) ∧
    occurrences user_id participants'
      = pred (occurrences user_id (Activity.participants a)) ∧
    ((occurrences (Activity.id a) (User.registered_activities u) ≤ 1)%nat →
     (occurrences user_id (Activity.participants a) ≤ 1)%nat →
     (Activity.id a ∉ registered') ∧ (user_id ∉ participants') ∧
     unregister_from_activity user_id k st' = (Ok (cancel_prefix +:+ Activity.name a), st')).
Proof.
  intros Hk Hu registered' participants'.
  exists (snd (unregister_from_activity user_id k st)).
  assert (Hocc_r : occurrences (Activity.id a) registered'
                   = pred (occurrences (Activity.id a) (User.registered_activities u))).
  { unfold registered'. by rewrite occurrences_remove_first, bool_decide_eq_true_2. }
  assert (Hocc_p : occurrences user_id participants'
                   = pred (occurrences user_id (Activity.participants a))).
  { unfold participants'. by rewrite occurrences_remove_first, bool_decide_eq_true_2. }
  split_and!; try done.
  - by rewrite (unregister_from_activity_eq _ _ _ _ _ _ Hk Hu).
  - by rewrite (unregister_from_activity_eq _ _ _ _ _ _ Hk Hu).
  - by rewrite (unregister_from_activity_eq _ _ _ _ _ _ Hk Hu).
  - by rewrite (unregister_from_activity_eq _ _ _ _ _ _ Hk Hu).
  - intros Hr Hp.
    assert (Hnr : Activity.id a ∉ registered') by (apply occurrences_zero; lia).
    assert (Hnp : user_id ∉ participants') by (apply occurrences_zero; lia).
    split_and!; try done. by eapply unregister_again.
Qed.

Lemma unregister_removes_witness :
  ∃ st',
    unregister_from_activity 1 0 (run [Register 1 1] Sample.state)
    = (Ok (cancel_prefix +:+ Activity.name Sample.planting), st') ∧
    users (data st') = [Sample.user1] ∧
    activities (data st') = activities Sample.store ∧
    unregister_from_activity 1 0 st'
    = (Ok (cancel_prefix +:+ Activity.name Sample.planting), st').
Proof.
  destruct (unregister_removes 1 0 (run [Register 1 1] Sample.state)
              (add_participant 1 Sample.planting) 0
              (add_registration 1 Sample.user1) eq_refl eq_refl)
    as (st' & Hrun & Husers & Hacts & _ & _ & _ & Hagain).
  exists st'. split_and!.
  - exact Hrun.
  - exact Husers.
  - exact Hacts.
  - apply Hagain; vm_compute; lia.
Defined.

(** C6 as stated fails: on [Sample.dup_state], whose user lists activity 1
    twice, the user still lists activity 1 after a cancel, and a second
    cancel changes the state again. *)
Lemma unregister_repeat_changes_state :
  let st1 := snd (unregister_from_activity 1 0 Sample.dup_state) in
  let st2 := snd (unregister_from_activity 1 0 st1) in
  find_user 1 (data Sample.dup_state) = Some (0%nat, Sample.dup_user) ∧
  activities (data Sample.dup_state) !! 0%nat = Some Sample.dup_activity ∧
  (∃ u1, find_user 1 (data st1) = Some (0%nat, u1) ∧
         Activity.id Sample.dup_activity ∈ User.registered_activities u1) ∧
  st2 ≠ st1.
Proof.
  cbn zeta. split_and!.
  - reflexivity.
  - reflexivity.
  - exists (set_registered [1] Sample.dup_user). split; [reflexivity|].
    cbn. apply list_elem_of_here.
  - intros H.
    apply (f_equal (λ s, length (concat (User.registered_activities <$> users (data s))))) in H.
    vm_compute in H. discriminate H.
Qed.

(** ** Registering twice *)

(** X1: A second call with the same pair never changes the state the first
    call left, whatever the first call answered. *)
Lemma register_again user_id activity_id st :
  let st1 := snd (register_for_activity user_id activity_id st) in
  snd (register_for_activity user_id activity_id st1) = st1.
Proof.
  cbn zeta. rewrite (register_for_activity_eq user_id activity_id st).
  destruct (find_user user_id (data st)) as [[i u]|] eqn:Hu.
  2:{ cbn [snd]. by rewrite register_for_activity_eq, Hu. }
  destruct (find_activity activity_id (data st)) as [[j a]|] eqn:Ha.
  2:{ cbn [snd]. by rewrite register_for_activity_eq, Hu, Ha. }
  case_bool_decide as Hin.
  { cbn [snd]. by rewrite register_for_activity_eq, Hu, Ha, bool_decide_eq_true_2. }
  cbn [snd]. rewrite register_for_activity_eq.
  apply find_user_Some in Hu as Hu0. destruct Hu0 as (_ & Hid & _).
  apply find_activity_Some in Ha as Ha0. destruct Ha0 as (_ & Hida & _).
  unfold find_user, find_activity in *. cbn [registered_state data users activities].
  rewrite (find_rewritten User.id _ _ _ _ (add_registration activity_id u) Hu Hid).
  rewrite (find_rewritten Activity.id _ _ _ _ (add_participant user_id a) Ha Hida).
  rewrite bool_decide_eq_true_2; [done|].
  cbn. rewrite elem_of_app, list_elem_of_singleton. by right.
Qed.

(** C4, amended: for a stored user and a stored activity whose lists name
    the pair at most once each, and name the user among the participants
    only if the user's list names the activity, two calls of
    [register_for_activity] in a row leave exactly one occurrence of the
    activity id in the user's list and at most one of the user id among the
    participants (exactly one when the first call succeeded).  The second
    call answers already-registered, a message different from the one of
    success, and returns the state of the first call untouched. *)
Theorem register_twice (user_id activity_id : Z) (st : State)
    (i : nat) (u : User.t) (j : nat) (a : Activity.t) :
  find_user user_id (data st) = Some (i, u) →
  find_activity activity_id (data st) = Some (j, a) →
  (occurrences activity_id (User.registered_activities u) ≤ 1)%nat →
  (occurrences user_id (Activity.participants a) ≤ 1)%nat →
  (user_id ∈ Activity.participants a → activity_id ∈ User.registered_activities u) →
  ∃ r1 st1 u2 a2,
    register_for_activity user_id activity_id st = (Ok r1, st1) ∧
    register_for_activity user_id activity_id st1 = (Ok already_registered, st1) ∧
    already_registered ≠ success_prefix +:+ Activity.name a ∧
    find_user user_id (data st1) = Some (i, u2) ∧
    find_activity activity_id (data st1) = Some (j, a2) ∧
    occurrences activity_id (User.registered_activities u2) = 1%nat ∧
    (occurrences user_id (Activity.participants a2) ≤ 1)%nat ∧
    (r1 = success_prefix +:+ Activity.name a →
     occurrences user_id (Activity.participants a2) = 1%nat).
Proof.
  intros Hu Ha Hru Hpa Hlink.
  destruct (success_is_distinct (Activity.name a)) as (Hd1 & Hd2 & Hd3).
  apply find_user_Some in Hu as Hu0. destruct Hu0 as (_ & Hid & _).
  apply find_activity_Some in Ha as Ha0. destruct Ha0 as (_ & Hida & _).
  destruct (decide (activity_id ∈ User.registered_activities u)) as [Hin|Hnot].
  - exists already_registered, st, u, a.
    assert (Hcall : register_for_activity user_id activity_id st
                    = (Ok already_registered, st))
      by (by rewrite register_for_activity_eq, Hu, Ha, bool_decide_eq_true_2).
    split_and!; try done.
    assert (occurrences activity_id (User.registered_activities u) ≠ 0%nat)
      by (by rewrite occurrences_zero; intros ?).
    lia.
  - assert (Hnp : user_id ∉ Activity.participants a) by (intros ?; apply Hnot; auto).
    exists (success_prefix +:+ Activity.name a),
           (registered_state i j u a user_id activity_id st),
           (add_registration activity_id u), (add_participant user_id a).
    assert (Hcall : register_for_activity user_id activity_id st
                    = (Ok (success_prefix +:+ Activity.name a),
                       registered_state i j u a user_id activity_id st))
      by (by rewrite register_for_activity_eq, Hu, Ha, bool_decide_eq_false_2).
    assert (Hu' : find_user user_id (data (registered_state i j u a user_id activity_id st))
                  = Some (i, add_registration activity_id u)).
    { unfold find_user in *. cbn. by apply (find_rewritten User.id _ _ _ u). }
    assert (Ha' : find_activity activity_id
                    (data (registered_state i j u a user_id activity_id st))
                  = Some (j, add_participant user_id a)).
    { unfold find_activity in *. cbn. by apply (find_rewritten Activity.id _ _ _ a). }
    apply occurrences_zero in Hnot, Hnp.
    assert (Hone : ∀ x, occurrences x [x] = 1%nat).
    { intros x. rewrite occurrences_cons, bool_decide_eq_true_2 by done. done. }
    split_and!; try done.
    + rewrite register_for_activity_eq, Hu', Ha'.
      rewrite bool_decide_eq_true_2; [done|].
      cbn. rewrite elem_of_app, list_elem_of_singleton. by right.
    + unfold add_registration. cbn [User.registered_activities].
      rewrite occurrences_app, Hone. lia.
    + unfold add_participant. cbn [Activity.participants].
      rewrite occurrences_app, Hone. lia.
    + intros _. unfold add_participant. cbn [Activity.participants].
      rewrite occurrences_app, Hone. lia.
Qed.

Lemma register_twice_witness :
  ∃ r1 st1 u2 a2,
    register_for_activity 1 1 Sample.state = (Ok r1, st1) ∧
    register_for_activity 1 1 st1 = (Ok already_registered, st1) ∧
    already_registered ≠ success_prefix +:+ Activity.name Sample.planting ∧
    find_user 1 (data st1) = Some (0%nat, u2) ∧
    find_activity 1 (data st1) = Some (0%nat, a2) ∧
    occurrences 1 (User.registered_activities u2) = 1%nat ∧
    (occurrences 1 (Activity.participants a2) ≤ 1)%nat ∧
    (r1 = success_prefix +:+ Activity.name Sample.planting →
     occurrences 1 (Activity.participants a2) = 1%nat).
Proof.
  apply (register_twice 1 1 Sample.state 0 Sample.user1 0 Sample.planting).
  - reflexivity.
  - reflexivity.
  - vm_compute. lia.
  - vm_compute. lia.
  - intros H. vm_compute in H. by apply elem_of_nil in H.
Defined.

(** C4 as stated fails: in [Sample.one_sided_store] the test looks at the
    user's list only, finds it empty, and the first call appends the user to
    participants that already name the user; the second call answers
    already-registered and the participants name the user twice. *)
Lemma register_twice_doubles_participant :
  let st1 := snd (register_for_activity 1 1 Sample.one_sided_state) in
  let st2 := snd (register_for_activity 1 1 st1) in
  find_user 1 (data Sample.one_sided_state) = Some (0%nat, Sample.user1) ∧
  find_activity 1 (data Sample.one_sided_state) = Some (0%nat, Sample.listing_activity) ∧
  fst (register_for_activity 1 1 Sample.one_sided_state)
    = Ok (success_prefix +:+ Activity.name Sample.listing_activity) ∧
  fst (register_for_activity 1 1 st1) = Ok already_registered ∧
  ∃ a2, find_activity 1 (data st2) = Some (0%nat, a2) ∧
        Activity.participants a2 = [1; 1] ∧
        ¬ (occurrences 1 (Activity.participants a2) ≤ 1)%nat.
Proof.
  cbn zeta. split_and!; try reflexivity.
  exists (add_participant 1 Sample.listing_activity). split_and!; try reflexivity.
  vm_compute. lia.
Qed.

Lemma register_unknown_user_witness :
  register_for_activity 7 1 Sample.state = (Ok user_not_found, Sample.state).
Proof.
  apply register_unknown_user.
  intros u Hu. cbn in Hu. members. vm_compute. discriminate.
Defined.

(** ** The stores that the calls build *)

Lemma sequential_unique d : sequential d → unique_ids d.
Proof.
  intros [Hu Ha]. unfold unique_ids. fold (user_ids d) (activity_ids d).
  rewrite Hu, Ha. split; apply NoDup_seqZ.
Qed.

Lemma step_sequential c st : sequential (data st) → sequential (data (step c st)).
Proof.
  intros [Hu Ha]. split.
  - rewrite <- (length_fmap User.id (users (data (step c st)))).
    fold (user_ids (data (step c st))). rewrite step_user_ids, length_app, Hu, length_seqZ.
    destruct (creates_user c); cbn [length app].
    + rewrite Nat2Z.id, Nat2Z.inj_add, (seqZ_app 1) by lia.
      f_equal. rewrite seqZ_cons, seqZ_nil by lia. f_equal. lia.
    + by rewrite app_nil_r, Nat.add_0_r, Nat2Z.id.
  - rewrite <- (length_fmap Activity.id (activities (data (step c st)))).
    fold (activity_ids (data (step c st))).
    rewrite step_activity_ids, length_app, Ha, length_seqZ.
    destruct (creates_activity c); cbn [length app].
    + rewrite Nat2Z.id, Nat2Z.inj_add, (seqZ_app 1) by lia.
      f_equal. rewrite seqZ_cons, seqZ_nil by lia. f_equal. lia.
    + by rewrite app_nil_r, Nat.add_0_r, Nat2Z.id.
Qed.

Lemma registered_state_referential user_id activity_id st i u j a :
  unique_ids (data st) → referential (data st) →
  find_user user_id (data st) = Some (i, u) →
  find_activity activity_id (data st) = Some (j, a) →
  referential (data (registered_state i j u a user_id activity_id st)).
Proof.
  intros [Hnu Hna] [Hru Hra] Hu Ha.
  apply find_user_Some in Hu as (Hi & Hidu & _).
  apply find_activity_Some in Ha as (Hj & Hida & _).
  unfold referential, user_ids, activity_ids in *. cbn.
  rewrite (insert_same_key User.id _ _ u), (insert_same_key Activity.id _ _ a) by done.
  split.
  - intros x y Hx Hy.
    destruct (elem_of_rewritten User.id _ _ u _ x Hnu Hi Hx) as [->|[Hx' _]]; [|by eauto].
    cbn in Hy. apply elem_of_app in Hy as [Hy| ->%list_elem_of_singleton].
    + eapply Hru; [|done]. by eapply list_elem_of_lookup_2.
    + rewrite <- Hida. apply list_elem_of_fmap_2. by eapply list_elem_of_lookup_2.
  - intros x y Hx Hy.
    destruct (elem_of_rewritten Activity.id _ _ a _ x Hna Hj Hx) as [->|[Hx' _]]; [|by eauto].
    cbn in Hy. apply elem_of_app in Hy as [Hy| ->%list_elem_of_singleton].
    + eapply Hra; [|done]. by eapply list_elem_of_lookup_2.
    + rewrite <- Hidu. apply list_elem_of_fmap_2. by eapply list_elem_of_lookup_2.
Qed.

Lemma unregistered_state_referential user_id k st a i u :
  unique_ids (data st) → referential (data st) →
  activities (data st) !! k = Some a →
  find_user user_id (data st) = Some (i, u) →
  referential (data (snd (unregister_from_activity user_id k st))).
Proof.
  intros [Hnu Hna] [Hru Hra] Hk Hu.
  rewrite (unregister_from_activity_eq _ _ _ _ _ _ Hk Hu).
  apply find_user_Some in Hu as (Hi & Hidu & _).
  unfold referential, user_ids, activity_ids in *. cbn.
  rewrite (insert_same_key User.id _ _ u), (insert_same_key Activity.id _ _ a) by done.
  split.
  - intros x y Hx Hy.
    destruct (elem_of_rewritten User.id _ _ u _ x Hnu Hi Hx) as [->|[Hx' _]]; [|by eauto].
    cbn in Hy. apply remove_first_subset in Hy.
    eapply Hru; [|done]. by eapply list_elem_of_lookup_2.
  - intros x y Hx Hy.
    destruct (elem_of_rewritten Activity.id _ _ a _ x Hna Hk Hx) as [->|[Hx' _]]; [|by eauto].
    cbn in Hy. apply remove_first_subset in Hy.
    eapply Hra; [|done]. by eapply list_elem_of_lookup_2.
Qed.

Lemma next_id_fresh (n : nat) : Z.of_nat n + 1 ∉ seqZ 1 (Z.of_nat n).
Proof. rewrite elem_of_seqZ. lia. Qed.

Lemma step_built c st : built (data st) → built (data (step c st)).
Proof.
  intros (Hseq & Href & Hdup & Hsym).
  pose proof (sequential_unique _ Hseq) as Huniq.
  split; [by apply step_sequential|].
  destruct c as [n c l dt t ds|n l pc ad|uid aid|uid k]; cbn [step].
  - (* add_activity *)
    rewrite add_activity_eq. cbn.
    destruct Hseq as [_ Hseq], Href as [Hru Hra], Hdup as [Hdu Hda].
    unfold referential, duplicate_free, symmetric, user_ids, activity_ids in *. cbn.
    split_and!.
    + intros u x Hu Hx. rewrite fmap_app, elem_of_app. left. by eapply Hru.
    + intros a x [Ha| ->%list_elem_of_singleton]%elem_of_app Hx; [by eapply Hra|].
      by apply elem_of_nil in Hx.
    + done.
    + intros a [Ha| ->%list_elem_of_singleton]%elem_of_app; [by apply Hda|constructor].
    + intros u a Hu [Ha| ->%list_elem_of_singleton]%elem_of_app; [by apply Hsym|].
      cbn. split; [|intros H; by apply elem_of_nil in H].
      intros Hin. apply (Hru _ _ Hu) in Hin. rewrite Hseq in Hin.
      by apply next_id_fresh in Hin.
  - (* register_user *)
    rewrite register_user_eq. cbn.
    destruct Hseq as [Hseq _], Href as [Hru Hra], Hdup as [Hdu Hda].
    unfold referential, duplicate_free, symmetric, user_ids, activity_ids in *. cbn.
    split_and!.
    + intros u x [Hu| ->%list_elem_of_singleton]%elem_of_app Hx; [by eapply Hru|].
      by apply elem_of_nil in Hx.
    + intros a x Ha Hx. rewrite fmap_app, elem_of_app. left. by eapply Hra.
    + intros u [Hu| ->%list_elem_of_singleton]%elem_of_app; [by apply Hdu|constructor].
    + done.
    + intros u a [Hu| ->%list_elem_of_singleton]%elem_of_app Ha; [by apply Hsym|].
      cbn. split; [intros H; by apply elem_of_nil in H|].
      intros Hin. apply (Hra _ _ Ha) in Hin. rewrite Hseq in Hin.
      by apply next_id_fresh in Hin.
  - (* register_for_activity *)
    rewrite register_for_activity_eq.
    destruct (find_user uid (data st)) as [[i u]|] eqn:Hu; [|done].
    destruct (find_activity aid (data st)) as [[j a]|] eqn:Ha; [|done].
    case_bool_decide; [done|].
    split; [by apply registered_state_referential|].
    by apply registered_state_consistent.
  - (* the cancel handler *)
    destruct (activities (data st) !! k) as [a|] eqn:Hk.
    2:{ destruct (unregister_from_activity_raises uid k st) as [e ->]; auto. }
    destruct (find_user uid (data st)) as [[i u]|] eqn:Hu.
    2:{ destruct (unregister_from_activity_raises uid k st) as [e ->]; auto. }
    split; [by eapply unregistered_state_referential|].
    by eapply unregistered_state_consistent.
Qed.

(** X2: Every store built from the empty document by the four kinds of calls
    has the ids 1, 2, 3, ..., names only stored records in its lists, names
    none twice, and is symmetric. *)
Theorem built_from_empty (cs : list Call) (f : File) :
  built (data (run cs (mkState empty_document f))).
Proof.
  assert (H0 : built (data (mkState empty_document f))).
  { split_and!; try done.
    - split; intros ? ? H; by apply elem_of_nil in H.
    - split; intros ? H; by apply elem_of_nil in H.
    - intros ? ? H; by apply elem_of_nil in H. }
  revert H0. generalize (mkState empty_document f).
  induction cs as [|c cs IH]; intros st Hst; [done|].
  rewrite run_cons. apply IH. by apply step_built.
Qed.

Corollary built_consistent d : built d → consistent d.
Proof.
  intros (Hseq & _ & Hdup & Hsym). split_and!; [by apply sequential_unique|done..].
Qed.

(** ** The substring test *)

Lemma prefix_append x y : String.prefix x y = true ↔ ∃ s, y = x +:+ s.
Proof.
  revert y. induction x as [|a x IH]; intros y.
  - destruct y; cbn; split; eauto.
  - destruct y as [|b y]; cbn.
    + split; [discriminate|]. intros [s Hs]. discriminate Hs.
    + destruct (ascii_dec a b) as [->|Hne].
      * rewrite IH. split; intros [s Hs]; exists s; [by rewrite Hs|].
        cbn in Hs. by injection Hs.
      * split; [discriminate|]. intros [s Hs]. cbn in Hs. injection Hs as ? ?. done.
Qed.

(** [str_in x y] holds exactly when [y] is some text, then [x], then some
    text. *)
Lemma str_in_spec x y : str_in x y = true ↔ ∃ p s, y = p +:+ x +:+ s.
Proof.
  induction y as [|c y IH]; cbn [str_in].
  - destruct (String.prefix x "") eqn:Hp.
    + split; [|done]. intros _. apply prefix_append in Hp as [s Hs]. by exists "", s.
    + split; [discriminate|]. intros (p & s & Hps).
      destruct p; [|discriminate Hps]. cbn in Hps.
      assert (String.prefix x "" = true) by (apply prefix_append; eauto). congruence.
  - destruct (String.prefix x (String c y)) eqn:Hp.
    + split; [|done]. intros _. apply prefix_append in Hp as [s Hs]. by exists "", s.
    + rewrite IH. split.
      * intros (p & s & ->). by exists (String c p), s.
      * intros (p & s & Hps). destruct p as [|c' p].
        -- cbn in Hps.
           assert (String.prefix x (String c y) = true) by (apply prefix_append; eauto).
           congruence.
        -- cbn in Hps. injection Hps as -> ->. by exists p, s.
Qed.

(** * Further properties of the code *)

(** ** The file follows the document *)

Lemma step_saves c st : step c st = st ∨ in_sync (step c st).
Proof.
  destruct c as [n c l dt t ds|n l pc ad|uid aid|uid k]; cbn [step].
  - right. by rewrite add_activity_eq.
  - right. by rewrite register_user_eq.
  - rewrite register_for_activity_eq.
    destruct (find_user uid (data st)) as [[i u]|]; [|by left].
    destruct (find_activity aid (data st)) as [[j a]|]; [|by left].
    case_bool_decide; [by left|by right].
  - destruct (activities (data st) !! k) as [a|] eqn:Hk.
    2:{ left. destruct (unregister_from_activity_raises uid k st) as [e ->]; auto. }
    destruct (find_user uid (data st)) as [[i u]|] eqn:Hu.
    2:{ left. destruct (unregister_from_activity_raises uid k st) as [e ->]; auto. }
    right. by rewrite (unregister_from_activity_eq _ _ _ _ _ _ Hk Hu).
Qed.

Lemma run_in_sync cs st : in_sync st → in_sync (run cs st).
Proof.
  revert st. induction cs as [|c cs IH]; intros st Hst; [done|].
  rewrite run_cons. apply IH.
  destruct (step_saves c st) as [Hsame|Hsync]; [by rewrite Hsame|done].
Qed.

(** X3: Write-through: whatever the calls and their arguments, a sequence of
    calls either leaves the whole state as it was or ends with the file
    holding exactly the document in memory. *)
Theorem write_through (cs : list Call) (st : State) :
  run cs st = st ∨ in_sync (run cs st).
Proof.
  revert st. induction cs as [|c cs IH]; intros st; [by left|].
  rewrite run_cons.
  destruct (step_saves c st) as [Hsame|Hsync].
  - rewrite Hsame. apply IH.
  - right. by apply run_in_sync.
Qed.

(** X4: A restart after any sequence of calls, from a state whose file held its
    document, loads exactly the state the calls left, without a warning. *)
Theorem restart_restores (cs : list Call) (st : State) :
  in_sync st →
  init (disk (run cs st)) = (Ok (run cs st), []).
Proof.
  intros Hst.
  assert (Hsync : in_sync (run cs st)) by by apply run_in_sync.
  unfold in_sync in Hsync. destruct (run cs st) as [d f]. cbn in Hsync. by subst f.
Qed.

Lemma restart_restores_witness :
  let cs := [Register 1 1; AddActivity "义诊" "关爱老人" "北城区" "2024-03-01" "09:00-11:00" ""] in
  init (disk (run cs Sample.state)) = (Ok (run cs Sample.state), []).
Proof. apply restart_restores. reflexivity. Defined.

(** ** A user id that no stored user carries *)

(** X5: With an unknown user id the two reading operations return the empty
    list, also when a stored date does not convert, and leave the state as
    it was.  The page of the user's activities then has no activity to
    show, and with it no cancel button. *)
Theorem unknown_user_reads (lower : string → string)
    (strptime_weekday : string → option string) (user_id : Z) (st : State) :
  (∀ u, u ∈ users (data st) → User.id u ≠ user_id) →
  match_activities lower strptime_weekday user_id st = (Ok [], st) ∧
  list_user_activities user_id st = (Ok [], st).
Proof.
  intros Hnone%find_user_None. split.
  - unfold match_activities, bind, get_data. by rewrite Hnone.
  - unfold list_user_activities, bind, get_data. by rewrite Hnone.
Qed.

Lemma unknown_user_reads_witness :
  match_activities Runtime.lower Runtime.strptime_weekday 7 Sample.bad_state
    = (Ok [], Sample.bad_state) ∧
  list_user_activities 7 Sample.bad_state = (Ok [], Sample.bad_state).
Proof.
  apply unknown_user_reads.
  intros u Hu. cbn in Hu. members. vm_compute. discriminate.
Defined.

(** ** What the pages show after a registration *)

Lemma shows_success_prefix n : shows_success (success_prefix +:+ n) = true.
Proof. reflexivity. Qed.

(** X6: The pages show the answer of [register_for_activity] as a success
    exactly when the registration was recorded: the test ["成功" in result]
    holds exactly when the user and the activity exist and the activity was
    not in the user's list, and when it fails the state is untouched. *)
Theorem success_banner (user_id activity_id : Z) (st : State) :
  ∃ msg st',
    register_for_activity user_id activity_id st = (Ok msg, st') ∧
    (shows_success msg = true ↔
     ∃ i u j a, find_user user_id (data st) = Some (i, u) ∧
                find_activity activity_id (data st) = Some (j, a) ∧
                (activity_id ∉ User.registered_activities u) ∧
                st' = registered_state i j u a user_id activity_id st) ∧
    (shows_success msg = false → st' = st).
Proof.
  rewrite register_for_activity_eq.
  destruct (find_user user_id (data st)) as [[i u]|] eqn:Hu.
  2:{ eexists _, _. split_and!; [done| |done].
      split; [discriminate|]. intros (? & ? & ? & ? & ? & _). discriminate. }
  destruct (find_activity activity_id (data st)) as [[j a]|] eqn:Ha.
  2:{ eexists _, _. split_and!; [done| |done].
      split; [discriminate|]. intros (? & ? & ? & ? & _ & ? & _). discriminate. }
  case_bool_decide as Hin.
  - eexists _, _. split_and!; [done| |done].
    split; [discriminate|]. intros (? & ? & ? & ? & ? & ? & ? & _). by simplify_eq.
  - eexists _, _. split_and!; [done| |].
    + split; [|by rewrite shows_success_prefix]. intros _. by exists i, u, j, a.
    + by rewrite shows_success_prefix.
Qed.

(** ** Registering, cancelling, and the list of a user's activities *)

Lemma filter_agree {A} (P Q : A → Prop) `{!∀ x, Decision (P x), !∀ x, Decision (Q x)}
    (l : list A) :
  (∀ x, x ∈ l → (P x ↔ Q x)) → filter P l = filter Q l.
Proof.
  induction l as [|x l IH]; intros Hagree; [done|].
  rewrite !filter_cons.
  assert (Hx : P x ↔ Q x) by (apply Hagree, list_elem_of_here).
  rewrite IH by (intros y Hy; apply Hagree; by apply list_elem_of_further).
  destruct (decide (P x)), (decide (Q x)); tauto.
Qed.

Lemma list_user_activities_eq user_id st i u :
  find_user user_id (data st) = Some (i, u) →
  list_user_activities user_id st
  = (Ok (filter (λ a, Activity.id a ∈ User.registered_activities u) (activities (data st))),
     st).
Proof. intros Hu. unfold list_user_activities, bind, get_data. by rewrite Hu. Qed.

(** X7: After a successful registration the activity, with the user among its
    participants, is in the list of the user's activities, and so is every
    activity that was in it before. *)
Theorem registered_activity_is_listed (user_id activity_id : Z) (st : State)
    (i : nat) (u : User.t) (j : nat) (a : Activity.t) :
  find_user user_id (data st) = Some (i, u) →
  find_activity activity_id (data st) = Some (j, a) →
  activity_id ∉ User.registered_activities u →
  ∃ before st' after,
    list_user_activities user_id st = (Ok before, st) ∧
    register_for_activity user_id activity_id st
      = (Ok (success_prefix +:+ Activity.name a), st') ∧
    list_user_activities user_id st' = (Ok after, st') ∧
    add_participant user_id a ∈ after ∧
    (∀ b, b ∈ before → b ∈ after).
Proof.
  intros Hu Ha Hnot.
  apply find_user_Some in Hu as Hu0. destruct Hu0 as (Hi & Hid & _).
  apply find_activity_Some in Ha as Ha0. destruct Ha0 as (Hj & Hida & _).
  assert (Hu' : find_user user_id (data (registered_state i j u a user_id activity_id st))
                = Some (i, add_registration activity_id u)).
  { unfold find_user in *. cbn. by apply (find_rewritten User.id _ _ _ u). }
  eexists _, _, _. split_and!.
  - exact (list_user_activities_eq _ _ _ _ Hu).
  - by rewrite register_for_activity_eq, Hu, Ha, bool_decide_eq_false_2.
  - exact (list_user_activities_eq _ _ _ _ Hu').
  - apply list_elem_of_filter. cbn. split.
    + rewrite elem_of_app, list_elem_of_singleton. by right.
    + apply list_elem_of_insert. by eapply lookup_lt_Some.
  - intros b [Hreg Hb]%list_elem_of_filter.
    apply list_elem_of_lookup in Hb as [k Hk].
    destruct (decide (k = j)) as [->|Hne].
    + assert (b = a) as -> by congruence. exfalso. apply Hnot. by rewrite <- Hida.
    + apply list_elem_of_filter. cbn. split.
      * rewrite elem_of_app. by left.
      * apply list_elem_of_lookup. exists k. by rewrite list_lookup_insert_ne.
Qed.

Lemma registered_activity_is_listed_witness :
  ∃ before st' after,
    list_user_activities 1 Sample.state = (Ok before, Sample.state) ∧
    register_for_activity 1 2 Sample.state
      = (Ok (success_prefix +:+ Activity.name Sample.library), st') ∧
    list_user_activities 1 st' = (Ok after, st') ∧
    add_participant 1 Sample.library ∈ after ∧
    (∀ b, b ∈ before → b ∈ after).
Proof.
  apply (registered_activity_is_listed 1 2 Sample.state 0 Sample.user1 1 Sample.library).
  - reflexivity.
  - reflexivity.
  - apply not_elem_of_nil.
Defined.

(** X8: After a cancel, for a user whose list named the activity at most once,
    no activity of that id is in the list of the user's activities, and
    every listed activity of another id still is. *)
Theorem cancelled_activity_not_listed (user_id : Z) (k : nat) (st : State)
    (a : Activity.t) (i : nat) (u : User.t) :
  activities (data st) !! k = Some a →
  find_user user_id (data st) = Some (i, u) →
  (occurrences (Activity.id a) (User.registered_activities u) ≤ 1)%nat →
  ∃ before st' after,
    list_user_activities user_id st = (Ok before, st) ∧
    unregister_from_activity user_id k st
      = (Ok (cancel_prefix +:+ Activity.name a), st') ∧
    list_user_activities user_id st' = (Ok after, st') ∧
    (∀ b, b ∈ after → Activity.id b ≠ Activity.id a) ∧
    (∀ b, b ∈ before → Activity.id b ≠ Activity.id a → b ∈ after).
Proof.
  intros Hk Hu Hocc.
  apply find_user_Some in Hu as Hu0. destruct Hu0 as (Hi & Hid & _).
  pose proof (unregister_from_activity_eq _ _ _ _ _ _ Hk Hu) as Hrun. cbn zeta in Hrun.
  set (u' := set_registered _ u) in Hrun. set (a' := set_participants _ a) in Hrun.
  set (st' := mkState _ _) in Hrun.
  assert (Hu' : find_user user_id (data st') = Some (i, u')).
  { unfold find_user in *. cbn. by apply (find_rewritten User.id _ _ _ u). }
  assert (Hgone : Activity.id a ∉ User.registered_activities u').
  { apply occurrences_zero. unfold u', set_registered. cbn [User.registered_activities].
    rewrite occurrences_remove_first, bool_decide_eq_true_2 by done. lia. }
  exists (filter (λ b, Activity.id b ∈ User.registered_activities u) (activities (data st))),
         st',
         (filter (λ b, Activity.id b ∈ User.registered_activities u') (activities (data st'))).
  split_and!.
  - exact (list_user_activities_eq _ _ _ _ Hu).
  - exact Hrun.
  - exact (list_user_activities_eq _ _ _ _ Hu').
  - intros b [Hreg _]%list_elem_of_filter Heq. apply Hgone. by rewrite <- Heq.
  - intros b [Hreg Hb]%list_elem_of_filter Hne.
    apply list_elem_of_lookup in Hb as [k' Hk'].
    assert (k' ≠ k) by (intros ->; congruence).
    apply list_elem_of_filter. split.
    + cbn. by apply remove_first_other.
    + apply list_elem_of_lookup. exists k'. cbn. by rewrite list_lookup_insert_ne.
Qed.

Lemma cancelled_activity_not_listed_witness :
  ∃ before st' after,
    list_user_activities 1 (run [Register 1 1; Register 1 2] Sample.state)
      = (Ok before, run [Register 1 1; Register 1 2] Sample.state) ∧
    unregister_from_activity 1 0 (run [Register 1 1; Register 1 2] Sample.state)
      = (Ok (cancel_prefix +:+ Activity.name Sample.planting), st') ∧
    list_user_activities 1 st' = (Ok after, st') ∧
    (∀ b, b ∈ after → Activity.id b ≠ 1) ∧
    (∀ b, b ∈ before → Activity.id b ≠ 1 → b ∈ after).
Proof.
  apply (cancelled_activity_not_listed 1 0 (run [Register 1 1; Register 1 2] Sample.state)
           (add_participant 1 Sample.planting) 0
           (add_registration 2 (add_registration 1 Sample.user1))).
  - reflexivity.
  - reflexivity.
  - vm_compute. lia.
Defined.

Lemma remove_first_appended x l : x ∉ l → remove_first x (l ++ [x]) = l.
Proof.
  induction l as [|y r IH]; cbn.
  - intros _. by rewrite bool_decide_eq_true_2.
  - rewrite not_elem_of_cons. intros [Hne Hr].
    rewrite bool_decide_eq_false_2 by congruence. by rewrite IH.
Qed.

(** X9: A cancel right after a successful registration gives back the two
    collections as they were before the registration, when the activity did
    not already list the user. *)
Theorem cancel_undoes_register (user_id activity_id : Z) (st : State)
    (i : nat) (u : User.t) (j : nat) (a : Activity.t) :
  find_user user_id (data st) = Some (i, u) →
  find_activity activity_id (data st) = Some (j, a) →
  activity_id ∉ User.registered_activities u →
  user_id ∉ Activity.participants a →
  ∃ st1 st2,
    register_for_activity user_id activity_id st
      = (Ok (success_prefix +:+ Activity.name a), st1) ∧
    unregister_from_activity user_id j st1
      = (Ok (cancel_prefix +:+ Activity.name a), st2) ∧
    data st2 = data st ∧ in_sync st2.
Proof.
  intros Hu Ha Hnr Hnp.
  apply find_user_Some in Hu as Hu0. destruct Hu0 as (Hi & Hid & _).
  apply find_activity_Some in Ha as Ha0. destruct Ha0 as (Hj & Hida & _).
  set (st1 := registered_state i j u a user_id activity_id st).
  assert (Hu1 : find_user user_id (data st1) = Some (i, add_registration activity_id u)).
  { unfold find_user in *. cbn. by apply (find_rewritten User.id _ _ _ u). }
  assert (Hj1 : activities (data st1) !! j = Some (add_participant user_id a)).
  { cbn. apply list_lookup_insert_eq. by eapply lookup_lt_Some. }
  exists st1, (snd (unregister_from_activity user_id j st1)). split_and!.
  - by rewrite register_for_activity_eq, Hu, Ha, bool_decide_eq_false_2.
  - by rewrite (unregister_from_activity_eq _ _ _ _ _ _ Hj1 Hu1).
  - rewrite (unregister_from_activity_eq _ _ _ _ _ _ Hj1 Hu1). cbn.
    rewrite Hida, !remove_first_appended by done.
    rewrite !list_insert_insert_eq.
    replace (set_registered _ _) with u by by destruct u.
    replace (set_participants _ _) with a by by destruct a.
    rewrite !list_insert_id by done. by destruct (data st).
  - by rewrite (unregister_from_activity_eq _ _ _ _ _ _ Hj1 Hu1).
Qed.

Lemma cancel_undoes_register_witness :
  ∃ st1 st2,
    register_for_activity 1 3 Sample.state
      = (Ok (success_prefix +:+ Activity.name Sample.tutoring), st1) ∧
    unregister_from_activity 1 2 st1
      = (Ok (cancel_prefix +:+ Activity.name Sample.tutoring), st2) ∧
    data st2 = data Sample.state ∧ in_sync st2.
Proof.
  apply (cancel_undoes_register 1 3 Sample.state 0 Sample.user1 2 Sample.tutoring).
  - reflexivity.
  - reflexivity.
  - apply not_elem_of_nil.
  - apply not_elem_of_nil.
Defined.

(** X10: In a symmetric store with unique user ids, the list of a stored user's
    activities is the activities collection filtered by "the user is among
    the participants". *)
Theorem my_activities_are_participations (st : State) (u : User.t) :
  u ∈ users (data st) →
  NoDup (User.id <$> users (data st)) →
  symmetric (data st) →
  list_user_activities (User.id u) st
  = (Ok (filter (λ a, User.id u ∈ Activity.participants a) (activities (data st))), st).
Proof.
  intros Hin Hnd Hsym.
  destruct (find_user_unique _ _ Hnd Hin) as [i Hfind].
  rewrite (list_user_activities_eq _ _ _ _ Hfind). do 2 f_equal.
  apply filter_agree. intros a Ha. by apply Hsym.
Qed.

Lemma my_activities_are_participations_witness :
  let st := run [Register 1 1; Register 1 3] Sample.state in
  list_user_activities 1 st
  = (Ok (filter (λ a, 1 ∈ Activity.participants a) (activities (data st))), st)
  ∧ filter (λ a, 1 ∈ Activity.participants a) (activities (data st))
    = [add_participant 1 Sample.planting; add_participant 1 Sample.tutoring].
Proof.
  cbn zeta.
  assert (Hc : consistent (data (run [Register 1 1; Register 1 3] Sample.state))).
  { apply (step_consistent (Register 1 3)); [reflexivity|].
    apply (step_consistent (Register 1 1)); [reflexivity|].
    exact sample_consistent. }
  destruct Hc as ([Hids _] & _ & Hsym).
  split; [|reflexivity].
  apply (my_activities_are_participations
           (run [Register 1 1; Register 1 3] Sample.state)
           (add_registration 3 (add_registration 1 Sample.user1))).
  - apply list_elem_of_here.
  - exact Hids.
  - exact Hsym.
Defined.

(** ** The count of participations *)

Section Tally.

Context {A : Type} (g : A → Z).

Lemma tally_from z (l : list A) : foldl (λ acc x, acc + g x) z l = z + tally g l.
Proof.
  unfold tally. revert z. induction l as [|x l IH]; intros z; cbn; [lia|].
  rewrite (IH (z + g x)), (IH (0 + g x)). lia.
Qed.

Lemma tally_cons x (l : list A) : tally g (x :: l) = g x + tally g l.
Proof. unfold tally at 1. cbn. by rewrite tally_from. Qed.

Lemma tally_app (l k : list A) : tally g (l ++ k) = tally g l + tally g k.
Proof.
  induction l as [|x l IH]; [done|].
  cbn [app]. rewrite !tally_cons, IH. lia.
Qed.

Lemma tally_insert (l : list A) i x x' :
  l !! i = Some x → tally g (<[i := x']> l) = tally g l - g x + g x'.
Proof.
  revert i. induction l as [|y l IH]; intros [|i] Hi; try discriminate.
  - cbn in Hi. injection Hi as ->.
    change (<[0%nat := x']> (x :: l)) with (x' :: l). rewrite !tally_cons. lia.
  - cbn in Hi.
    change (<[S i := x']> (y :: l)) with (y :: <[i := x']> l).
    rewrite !tally_cons, (IH i Hi). lia.
Qed.

End Tally.

Lemma length_remove_first x l :
  Z.of_nat (length (remove_first x l))
  = Z.of_nat (length l) - (if bool_decide (x ∈ l) then 1 else 0).
Proof.
  induction l as [|y r IH]; [done|]. cbn [remove_first].
  destruct (decide (y = x)) as [->|Hne].
  - rewrite bool_decide_eq_true_2 by done.
    rewrite (bool_decide_eq_true_2 (x ∈ x :: r)) by apply list_elem_of_here.
    cbn [length]. lia.
  - rewrite bool_decide_eq_false_2 by done. cbn [length]. rewrite !Nat2Z.inj_succ, IH.
    destruct (decide (x ∈ r)) as [Hin|Hnin].
    + rewrite !bool_decide_eq_true_2; [lia|by apply list_elem_of_further|done].
    + rewrite !bool_decide_eq_false_2; [lia| |done].
      rewrite not_elem_of_cons. split; [congruence|done].
Qed.

Lemma step_balanced c st :
  symmetric (data st) →
  total_participations (data st) = total_registrations (data st) →
  total_participations (data (step c st)) = total_registrations (data (step c st)).
Proof.
  intros Hsym Hbal. unfold total_participations, total_registrations in *.
  destruct c as [n c l dt t ds|n l pc ad|uid aid|uid k]; cbn [step].
  - rewrite add_activity_eq. cbn -[tally]. rewrite tally_app, tally_cons.
    cbn -[tally]. change (tally _ []) with 0. lia.
  - rewrite register_user_eq. cbn -[tally]. rewrite tally_app, tally_cons.
    cbn -[tally]. change (tally _ []) with 0. lia.
  - rewrite register_for_activity_eq.
    destruct (find_user uid (data st)) as [[i u]|] eqn:Hu; [|done].
    destruct (find_activity aid (data st)) as [[j a]|] eqn:Ha; [|done].
    case_bool_decide; [done|]. cbn -[tally].
    apply find_user_Some in Hu as (Hi & _). apply find_activity_Some in Ha as (Hj & _).
    rewrite (tally_insert _ _ _ _ _ Hi), (tally_insert _ _ _ _ _ Hj). cbn -[tally].
    rewrite !length_app. cbn -[tally]. lia.
  - destruct (activities (data st) !! k) as [a|] eqn:Hk.
    2:{ destruct (unregister_from_activity_raises uid k st) as [e ->]; auto. }
    destruct (find_user uid (data st)) as [[i u]|] eqn:Hu.
    2:{ destruct (unregister_from_activity_raises uid k st) as [e ->]; auto. }
    rewrite (unregister_from_activity_eq _ _ _ _ _ _ Hk Hu). cbn -[tally remove_first].
    apply find_user_Some in Hu as (Hi & Hid & _).
    rewrite (tally_insert _ _ _ _ _ Hi), (tally_insert _ _ _ _ _ Hk).
    cbn -[tally remove_first].
    rewrite !length_remove_first.
    assert (Hlink : Activity.id a ∈ User.registered_activities u
                    ↔ uid ∈ Activity.participants a).
    { rewrite <- Hid. apply Hsym; by eapply list_elem_of_lookup_2. }
    destruct (decide (uid ∈ Activity.participants a)) as [Hp|Hp].
    + rewrite !bool_decide_eq_true_2 by tauto. lia.
    + rewrite !bool_decide_eq_false_2 by tauto. lia.
Qed.

(** X11: In every store that the calls build from the empty document, the
    participations counted over the activities, as the home page does, are
    as many as the registrations counted over the users. *)
Theorem participations_are_registrations (cs : list Call) (f : File) :
  let d := data (run cs (mkState empty_document f)) in
  total_participations d = total_registrations d.
Proof.
  cbn zeta.
  assert (H0 : built (data (mkState empty_document f))
               ∧ total_participations (data (mkState empty_document f))
                 = total_registrations (data (mkState empty_document f))).
  { split; [|reflexivity]. split_and!; try done.
    - split; intros ? ? H; by apply elem_of_nil in H.
    - split; intros ? H; by apply elem_of_nil in H.
    - intros ? ? H; by apply elem_of_nil in H. }
  revert H0. generalize (mkState empty_document f).
  induction cs as [|c cs IH]; intros st [Hb Hbal]; [done|].
  rewrite run_cons. apply IH. split; [by apply step_built|].
  apply step_balanced; [|done]. by destruct Hb as (_ & _ & _ & ?).
Qed.

(** ** The sample activities *)

Lemma seed_on_empty date_after us f :
  seed_sample_data date_after (mkState (mkStore us []) f)
  = (Ok tt,
     let acts :=
       [ Activity.mk 1 "城市公园植树活动" "环保活动" "东城区" (date_after 1)
           "09:00-12:00" "与社区一起参与城市绿化，为城市增添一抹绿色" [];
         Activity.mk 2 "社区图书馆整理" "教育支持" "西城区" (date_after 2)
           "14:00-16:30" "协助整理社区图书馆书籍，创造良好阅读环境" [];
         Activity.mk 3 "养老院关爱探访" "关爱老人" "东城区" (date_after 6)
           "10:00-12:00" "为养老院老人带去欢乐和关爱" [];
         Activity.mk 4 "海滩清洁行动" "环保活动" "南城区" (date_after 3)
           "08:00-11:00" "保护海洋环境，清理海滩垃圾" [];
         Activity.mk 5 "社区儿童教育" "教育支持" "东城区" (date_after 4)
           "15:00-17:00" "为社区儿童提供课外辅导和游戏活动" [] ] in
     mkState (mkStore us acts) (Document (mkStore us acts))).
Proof. reflexivity. Qed.

Lemma seed_on_nonempty date_after st :
  activities (data st) ≠ [] → seed_sample_data date_after st = (Ok tt, st).
Proof.
  intros Hne. unfold seed_sample_data, bind, get_data.
  by destruct (activities (data st)).
Qed.

(** X12: The sample block adds its activities once.  It returns normally and
    never touches the users.  On a matcher that has an activity it changes
    nothing.  On a matcher without activities it leaves five activities,
    numbered 1 to 5, without participants, and the file saved.  Run again
    on its own result, on whatever day, it changes nothing. *)
Theorem seed_once (date_after date_after' : Z → string) (st : State) :
  let st1 := snd (seed_sample_data date_after st) in
  fst (seed_sample_data date_after st) = Ok tt ∧
  users (data st1) = users (data st) ∧
  (activities (data st) ≠ [] → st1 = st) ∧
  (activities (data st) = [] →
     Activity.id <$> activities (data st1) = [1; 2; 3; 4; 5] ∧
     Forall (λ a, Activity.participants a = []) (activities (data st1)) ∧
     in_sync st1) ∧
  seed_sample_data date_after' st1 = (Ok tt, st1).
Proof.
  destruct st as [[us acts] f]. destruct acts as [|a acts].
  - rewrite seed_on_empty. cbn zeta. cbn [fst snd]. split_and!; try done.
    all: try (by apply seed_on_nonempty).
    intros _. split_and!; [done| |done]. repeat constructor.
  - rewrite seed_on_nonempty by done. cbn zeta. cbn [fst snd]. split_and!; try done.
    all: by apply seed_on_nonempty.
Qed.

(** ** Looking up a record just created *)

Lemma list_find_appended {A} (P : A → Prop) `{!∀ x, Decision (P x)} (l : list A) x :
  P x →
  list_find P (l ++ [x]) =
  match list_find P l with
  | Some earlier => Some earlier
  | None => Some (length l, x)
  end.
Proof.
  intros Hx. destruct (list_find P l) as [[i y]|] eqn:Hfind.
  - by apply list_find_app_l.
  - rewrite list_find_app_r by done. cbn. by rewrite decide_True by done.
Qed.

(** X14: The lookup by the id of a record just created finds that record, at
    the end of its collection, unless an earlier record already carries
    the id; then it finds the earlier one, as before the creation. *)
Theorem created_record_lookup (st : State) :
  (∀ nm c l dt t ds, ∃ a st',
      add_activity nm c l dt t ds st = (Ok a, st') ∧
      find_activity (Activity.id a) (data st') =
        match find_activity (Activity.id a) (data st) with
        | Some earlier => Some earlier
        | None => Some (length (activities (data st)), a)
        end) ∧
  (∀ nm l pc ad, ∃ u st',
      register_user nm l pc ad st = (Ok u, st') ∧
      find_user (User.id u) (data st') =
        match find_user (User.id u) (data st) with
        | Some earlier => Some earlier
        | None => Some (length (users (data st)), u)
        end).
Proof.
  split.
  - intros. rewrite add_activity_eq. eexists _, _. split; [done|].
    unfold find_activity. cbn. by apply list_find_appended.
  - intros. rewrite register_user_eq. eexists _, _. split; [done|].
    unfold find_user. cbn. by apply list_find_appended.
Qed.

Lemma sequential_next_ids d :
  sequential d →
  find_user (Z.of_nat (length (users d)) + 1) d = None ∧
  find_activity (Z.of_nat (length (activities d)) + 1) d = None.
Proof.
  intros [Hu Ha]. split.
  - apply find_user_None. intros u Hin Heq.
    apply (list_elem_of_fmap_2 User.id) in Hin. fold (user_ids d) in Hin.
    rewrite Hu, Heq in Hin. by apply next_id_fresh in Hin.
  - apply find_activity_None. intros a Hin Heq.
    apply (list_elem_of_fmap_2 Activity.id) in Hin. fold (activity_ids d) in Hin.
    rewrite Ha, Heq in Hin. by apply next_id_fresh in Hin.
Qed.

(** X15: In a store whose ids are 1, 2, 3, ..., a user just created and an
    activity just created can be registered with each other by the ids
    that the two creations returned: the answer is the success message with
    the name of the activity, the user lists the activity and the activity
    lists the user. *)
Theorem fresh_records_register (st : State) (nm l : string) (pc ad : list string)
    (nm' c l' dt t ds : string) :
  sequential (data st) →
  ∃ u st1 a st2 st3 i j,
    register_user nm l pc ad st = (Ok u, st1) ∧
    add_activity nm' c l' dt t ds st1 = (Ok a, st2) ∧
    register_for_activity (User.id u) (Activity.id a) st2
      = (Ok (success_prefix +:+ nm'), st3) ∧
    users (data st3) !! i = Some (add_registration (Activity.id a) u) ∧
    activities (data st3) !! j = Some (add_participant (User.id u) a) ∧
    User.registered_activities (add_registration (Activity.id a) u) = [Activity.id a] ∧
    Activity.participants (add_participant (User.id u) a) = [User.id u].
Proof.
  intros Hseq. destruct (sequential_next_ids _ Hseq) as [Hnu Hna].
  set (u := User.mk (Z.of_nat (length (users (data st))) + 1) nm l pc ad []).
  set (d1 := mkStore (users (data st) ++ [u]) (activities (data st))).
  set (st1 := mkState d1 (Document d1)).
  set (a := Activity.mk (Z.of_nat (length (activities (data st1))) + 1)
              nm' c l' dt t ds []).
  set (d2 := mkStore (users (data st1)) (activities (data st1) ++ [a])).
  set (st2 := mkState d2 (Document d2)).
  assert (Hfu : find_user (User.id u) (data st2) = Some (length (users (data st)), u)).
  { unfold find_user in *.
    change (User.id u) with (Z.of_nat (length (users (data st))) + 1).
    cbn [st2 d2 st1 d1 data users].
    rewrite (list_find_appended _ _ u) by done. by rewrite Hnu. }
  assert (Hfa : find_activity (Activity.id a) (data st2)
                = Some (length (activities (data st1)), a)).
  { unfold find_activity in *.
    change (Activity.id a) with (Z.of_nat (length (activities (data st))) + 1).
    cbn [st2 d2 st1 d1 data activities].
    rewrite (list_find_appended _ _ a) by done. by rewrite Hna. }
  exists u, st1, a, st2,
    (registered_state (length (users (data st))) (length (activities (data st1)))
       u a (User.id u) (Activity.id a) st2),
    (length (users (data st))), (length (activities (data st1))).
  apply find_user_Some in Hfu as Hu0. destruct Hu0 as (Hi & _ & _).
  apply find_activity_Some in Hfa as Ha0. destruct Ha0 as (Hj & _ & _).
  split_and!; try done.
  - rewrite register_for_activity_eq, Hfu, Hfa.
    by rewrite bool_decide_eq_false_2 by apply not_elem_of_nil.
  - cbn [registered_state data users]. apply list_lookup_insert_eq. by eapply lookup_lt_Some.
  - cbn [registered_state data activities]. apply list_lookup_insert_eq.
    by eapply lookup_lt_Some.
Qed.

Lemma fresh_records_register_witness :
  ∃ u st1 a st2 st3 i j,
    register_user "小红" "西城区" ["教育支持"] ["周六"] Sample.state = (Ok u, st1) ∧
    add_activity "义诊" "关爱老人" "北城区" "2024-03-02" "09:00-11:00" "" st1 = (Ok a, st2) ∧
    register_for_activity (User.id u) (Activity.id a) st2
      = (Ok (success_prefix +:+ "义诊"), st3) ∧
    users (data st3) !! i = Some (add_registration (Activity.id a) u) ∧
    activities (data st3) !! j = Some (add_participant (User.id u) a) ∧
    User.registered_activities (add_registration (Activity.id a) u) = [Activity.id a] ∧
    Activity.participants (add_participant (User.id u) a) = [User.id u].
Proof.
  apply fresh_records_register. split; reflexivity.
Defined.

(** ** The day labels of the registration form *)

Lemma runtime_weekday_names date w :
  Runtime.strptime_weekday date = Some w → w ∈ Runtime.day_names.
Proof.
  unfold Runtime.strptime_weekday.
  destruct (Runtime.parse_date date) as [[[y m] d]|]; [|discriminate].
  apply list_elem_of_lookup_2.
Qed.

(** X16: With ASCII lower-casing and the English day names, a user whose only
    free day is one of the seven labels of the form is matched on the day
    of an activity exactly when that day is the one the label stands for:
    the substring test gives no second day to any label. *)
Theorem label_matches_its_day (label english date w : string) :
  (label, english) ∈ chinese_day_table →
  Runtime.strptime_weekday date = Some w →
  day_loop Runtime.lower w [label] = true ↔ w = english.
Proof.
  intros Hlabel Hw%runtime_weekday_names.
  unfold chinese_day_table in Hlabel. unfold Runtime.day_names in Hw.
  repeat (apply elem_of_cons in Hlabel as [Hlabel|Hlabel];
          [injection Hlabel as -> ->|]);
    try (by apply elem_of_nil in Hlabel);
    repeat (apply elem_of_cons in Hw as [->|Hw]);
    try (by apply elem_of_nil in Hw);
    (split; [intros H; vm_compute in H; first [reflexivity|discriminate H]
            |intros H; first [reflexivity|discriminate H]]).
Qed.

Lemma label_matches_its_day_witness :
  day_loop Runtime.lower "Wednesday" ["周三"] = true ↔ "Wednesday" = "Wednesday".
Proof.
  apply (label_matches_its_day "周三" "Wednesday" "2024-01-03" "Wednesday").
  - do 2 apply list_elem_of_further. apply list_elem_of_here.
  - reflexivity.
Defined.

(** ** A user without a free day *)

Lemma filter_none {A} (P : A → Prop) `{!∀ x, Decision (P x)} (l : list A) :
  (∀ x, x ∈ l → ¬ P x) → filter P l = [].
Proof.
  induction l as [|x l IH]; intros Hnone; [done|].
  rewrite filter_cons, decide_False by (apply Hnone, list_elem_of_here).
  apply IH. intros y Hy. apply Hnone. by apply list_elem_of_further.
Qed.

(** X17: A stored user with no available day is proposed nothing, whatever the
    categories and the location, when the stored dates convert. *)
Theorem no_free_day_no_match (lower : string → string)
    (strptime_weekday : string → option string)
    (user_id : Z) (st : State) (i : nat) (u : User.t) :
  find_user user_id (data st) = Some (i, u) →
  User.available_days u = [] →
  dates_valid strptime_weekday (data st) →
  match_activities lower strptime_weekday user_id st = (Ok [], st).
Proof.
  intros Hu Hdays Hvalid. unfold match_activities, bind, get_data. rewrite Hu.
  rewrite match_loop_filter by done. cbn [app].
  rewrite filter_none; [done|]. intros a _. unfold selected. rewrite Hdays.
  by destruct (strptime_weekday (Activity.date a)).
Qed.

Lemma no_free_day_no_match_witness :
  let idle := User.mk 1 "小明" "东城区" ["环保活动"] [] [] in
  let st := mkState (mkStore [idle] (activities Sample.store)) NoFile in
  match_activities Runtime.lower Runtime.strptime_weekday 1 st = (Ok [], st).
Proof.
  cbn zeta. eapply no_free_day_no_match.
  - reflexivity.
  - reflexivity.
  - exact sample_dates_valid.
Defined.

(** ** The filters of the browse page *)

(** X18: The browse page shows exactly the activities that pass both select
    boxes, where [全部] lets every activity pass, in the order of the
    collection; with [全部] in both it shows all of them; and an activity
    is always shown when its own category, or its own location, is
    selected with [全部] in the other box. *)
Theorem browse_filter_shows (category_filter location_filter : string)
    (acts : list Activity.t) :
  (∀ a, a ∈ browse_filter category_filter location_filter acts ↔
        a ∈ acts ∧
        (category_filter = all_option ∨ Activity.category a = category_filter) ∧
        (location_filter = all_option ∨ Activity.location a = location_filter)) ∧
  sublist (browse_filter category_filter location_filter acts) acts ∧
  browse_filter all_option all_option acts = acts ∧
  (∀ a, a ∈ acts → a ∈ browse_filter (Activity.category a) all_option acts) ∧
  (∀ a, a ∈ acts → a ∈ browse_filter all_option (Activity.location a) acts).
Proof.
  assert (Hmem : ∀ cf lf a, a ∈ browse_filter cf lf acts ↔
            a ∈ acts ∧ (cf = all_option ∨ Activity.category a = cf) ∧
            (lf = all_option ∨ Activity.location a = lf)).
  { intros cf lf a. unfold browse_filter.
    destruct (decide (cf = all_option)) as [Hc|Hc];
      destruct (decide (lf = all_option)) as [Hl|Hl].
    - rewrite !bool_decide_eq_false_2 by tauto. tauto.
    - rewrite (bool_decide_eq_false_2 (cf ≠ all_option)) by tauto.
      rewrite bool_decide_eq_true_2 by done. rewrite list_elem_of_filter. tauto.
    - rewrite (bool_decide_eq_true_2 (cf ≠ all_option)) by done.
      rewrite bool_decide_eq_false_2 by tauto. rewrite list_elem_of_filter. tauto.
    - rewrite !bool_decide_eq_true_2 by done. rewrite !list_elem_of_filter. tauto. }
  split_and!.
  - apply Hmem.
  - unfold browse_filter. repeat case_bool_decide.
    + etransitivity; apply sublist_filter.
    + apply sublist_filter.
    + apply sublist_filter.
    + reflexivity.
  - unfold browse_filter. by rewrite !bool_decide_eq_false_2 by tauto.
  - intros a Ha. apply Hmem. tauto.
  - intros a Ha. apply Hmem. tauto.
Qed.

(** ** Matching does not look at registrations *)

Lemma same_profile_fields u u' :
  same_profile u u' →
  User.id u = User.id u' ∧ User.location u = User.location u' ∧
  User.preferred_categories u = User.preferred_categories u' ∧
  User.available_days u = User.available_days u'.
Proof. destruct u, u'. unfold same_profile. cbn. intros H. by injection H. Qed.

Lemma same_offer_fields a a' :
  same_offer a a' →
  Activity.id a = Activity.id a' ∧ Activity.category a = Activity.category a' ∧
  Activity.location a = Activity.location a' ∧ Activity.date a = Activity.date a'.
Proof. destruct a, a'. unfold same_offer. cbn. intros H. by injection H. Qed.

Lemma rewritten_related {A} (R : A → A → Prop) (l : list A) i x x' :
  (∀ y, R y y) → l !! i = Some x → R x x' → Forall2 R l (<[i := x']> l).
Proof.
  intros Hrefl Hi Hx. rewrite <- (list_insert_id l i x Hi) at 1.
  apply Forall2_insert; [|done].
  apply Forall_Forall2_diag, Forall_forall. auto.
Qed.

Lemma registration_keeps_profiles c st :
  is_registration c = true →
  Forall2 same_profile (users (data st)) (users (data (step c st))) ∧
  Forall2 same_offer (activities (data st)) (activities (data (step c st))).
Proof.
  assert (Hsame : Forall2 same_profile (users (data st)) (users (data st))
                  ∧ Forall2 same_offer (activities (data st)) (activities (data st))).
  { split; apply Forall_Forall2_diag, Forall_forall; by intros. }
  destruct c as [| |uid aid|uid k]; [discriminate..| |]; intros _; cbn [step].
  - rewrite register_for_activity_eq.
    destruct (find_user uid (data st)) as [[i u]|] eqn:Hu; [|done].
    destruct (find_activity aid (data st)) as [[j a]|] eqn:Ha; [|done].
    case_bool_decide; [done|]. cbn.
    apply find_user_Some in Hu as (Hi & _). apply find_activity_Some in Ha as (Hj & _).
    split; (eapply rewritten_related; [by intros|done|]).
    + by destruct u.
    + by destruct a.
  - destruct (activities (data st) !! k) as [a|] eqn:Hk.
    2:{ destruct (unregister_from_activity_raises uid k st) as [e ->]; auto. }
    destruct (find_user uid (data st)) as [[i u]|] eqn:Hu.
    2:{ destruct (unregister_from_activity_raises uid k st) as [e ->]; auto. }
    rewrite (unregister_from_activity_eq _ _ _ _ _ _ Hk Hu). cbn.
    apply find_user_Some in Hu as (Hi & _).
    split; (eapply rewritten_related; [by intros|done|]).
    + by destruct u.
    + by destruct a.
Qed.

Lemma find_user_related user_id us us' :
  Forall2 same_profile us us' →
  match list_find (λ u, User.id u = user_id) us,
        list_find (λ u, User.id u = user_id) us' with
  | None, None => True
  | Some (i, u), Some (i', u') => i = i' ∧ same_profile u u'
  | _, _ => False
  end.
Proof.
  induction 1 as [|u u' us us' Huu' _ IH]; [done|]. cbn.
  destruct (same_profile_fields _ _ Huu') as (Hid & _).
  destruct (decide (User.id u = user_id)) as [Hu|Hu].
  - rewrite decide_True by congruence. done.
  - rewrite decide_False by congruence.
    destruct (list_find _ us) as [[i x]|], (list_find _ us') as [[i' x']|]; cbn; try done.
    destruct IH as [-> ?]. done.
Qed.

Section Frame.

Variable lower : string → string.
Variable strptime_weekday : string → option string.

Lemma match_loop_related u u' acts acts' matched matched' st st' :
  same_profile u u' →
  Forall2 same_offer acts acts' →
  Forall2 same_offer matched matched' →
  same_matches (fst (match_loop lower strptime_weekday u acts matched st))
               (fst (match_loop lower strptime_weekday u' acts' matched' st')).
Proof.
  intros Hu Hacts. revert matched matched'.
  destruct (same_profile_fields _ _ Hu) as (_ & Hloc & Hcat & Hdays).
  induction Hacts as [|a a' acts acts' Ha _ IH]; intros matched matched' Hm; [done|].
  destruct (same_offer_fields _ _ Ha) as (_ & Hc & Hl & Hd).
  cbn [match_loop]. unfold bind, weekday_name. rewrite <- Hd.
  destruct (strptime_weekday (Activity.date a)) as [w|]; [|done]. cbn [ret].
  unfold category_matched, location_matched. rewrite <- Hdays, <- Hcat, <- Hloc, <- Hc, <- Hl.
  destruct (_ && _); apply IH; [|done].
  apply Forall2_app; [done|]. by constructor.
Qed.

(** X19: Registering and cancelling never change what [match_activities]
    proposes: for every user id, before and after such a call it raises the
    same exception or returns the same activities in the same order, up to
    their lists of participants.  An activity the user has joined is
    proposed as before. *)
Theorem matches_ignore_registrations (st : State) (user_id : Z) :
  let matches st := fst (match_activities lower strptime_weekday user_id st) in
  (∀ u a, same_matches (matches st) (matches (snd (register_for_activity u a st)))) ∧
  (∀ u k, same_matches (matches st) (matches (snd (unregister_from_activity u k st)))).
Proof.
  assert (Hstep : ∀ c, is_registration c = true →
            same_matches (fst (match_activities lower strptime_weekday user_id st))
              (fst (match_activities lower strptime_weekday user_id (step c st)))).
  { intros c Hc. destruct (registration_keeps_profiles c st Hc) as [Hus Hacts].
    unfold match_activities, bind, get_data, find_user.
    pose proof (find_user_related user_id _ _ Hus) as Hfind.
    destruct (list_find _ (users (data st))) as [[i u]|],
             (list_find _ (users (data (step c st)))) as [[i' u']|]; try done.
    - destruct Hfind as [_ Hu]. by apply match_loop_related.
    - constructor. }
  split.
  - intros u a. apply (Hstep (Register u a)). reflexivity.
  - intros u k. apply (Hstep (Unregister u k)). reflexivity.
Qed.

End Frame.

(** ** Records are never removed *)

Lemma same_profile_trans u1 u2 u3 :
  same_profile u1 u2 → same_profile u2 u3 → same_profile u1 u3.
Proof. unfold same_profile. congruence. Qed.

Lemma same_offer_trans a1 a2 a3 :
  same_offer a1 a2 → same_offer a2 a3 → same_offer a1 a3.
Proof. unfold same_offer. congruence. Qed.

Lemma step_keeps_records c st :
  (∀ k u, users (data st) !! k = Some u →
          ∃ u', users (data (step c st)) !! k = Some u' ∧ same_profile u u') ∧
  (∀ k a, activities (data st) !! k = Some a →
          ∃ a', activities (data (step c st)) !! k = Some a' ∧ same_offer a a').
Proof.
  destruct (is_registration c) eqn:Hreg.
  - destruct (registration_keeps_profiles c st Hreg) as [Hus Hacts]. split.
    + intros k u Hk. by eapply Forall2_lookup_l.
    + intros k a Hk. by eapply Forall2_lookup_l.
  - destruct c as [n c l dt t ds|n l pc ad| |]; try discriminate; cbn [step].
    + rewrite add_activity_eq. cbn. split.
      * intros k u Hk. by exists u.
      * intros k a Hk. exists a. split; [by apply lookup_app_l_Some|done].
    + rewrite register_user_eq. cbn. split.
      * intros k u Hk. exists u. split; [by apply lookup_app_l_Some|done].
      * intros k a Hk. by exists a.
Qed.

Lemma run_keeps_records cs st :
  (∀ k u, users (data st) !! k = Some u →
          ∃ u', users (data (run cs st)) !! k = Some u' ∧ same_profile u u') ∧
  (∀ k a, activities (data st) !! k = Some a →
          ∃ a', activities (data (run cs st)) !! k = Some a' ∧ same_offer a a').
Proof.
  revert st. induction cs as [|c cs IH]; intros st.
  { split; intros k x Hk; by exists x. }
  rewrite run_cons. destruct (step_keeps_records c st) as [Hu1 Ha1].
  destruct (IH (step c st)) as [Hu2 Ha2]. split.
  - intros k u Hk. destruct (Hu1 k u Hk) as (u1 & Hk1 & H1).
    destruct (Hu2 k u1 Hk1) as (u2 & Hk2 & H2).
    exists u2. split; [done|]. by eapply same_profile_trans.
  - intros k a Hk. destruct (Ha1 k a Hk) as (a1 & Hk1 & H1).
    destruct (Ha2 k a1 Hk1) as (a2 & Hk2 & H2).
    exists a2. split; [done|]. by eapply same_offer_trans.
Qed.

(** X20: No sequence of calls removes, moves or edits a record: each collection
    grows by one record for each creation call and by nothing else, every
    record stays at its position and keeps all its fields but the list of
    registrations (of a user) or of participants (of an activity), and the
    id of a stored user or activity is still found afterwards. *)
Theorem records_are_kept (cs : list Call) (st : State) :
  let st' := run cs st in
  length (users (data st'))
    = (length (users (data st)) + count_calls creates_user cs)%nat ∧
  length (activities (data st'))
    = (length (activities (data st)) + count_calls creates_activity cs)%nat ∧
  (∀ k u, users (data st) !! k = Some u →
          ∃ u', users (data st') !! k = Some u' ∧ same_profile u u') ∧
  (∀ k a, activities (data st) !! k = Some a →
          ∃ a', activities (data st') !! k = Some a' ∧ same_offer a a') ∧
  (∀ u, u ∈ users (data st) → is_Some (find_user (User.id u) (data st'))) ∧
  (∀ a, a ∈ activities (data st) → is_Some (find_activity (Activity.id a) (data st'))).
Proof.
  cbn zeta. destruct (run_keeps_records cs st) as [Hus Hacts]. split_and!.
  - pose proof (f_equal length (run_user_ids cs st)) as H.
    unfold user_ids in H. rewrite length_app, !length_fmap, length_seqZ in H. lia.
  - pose proof (f_equal length (run_activity_ids cs st)) as H.
    unfold activity_ids in H. rewrite length_app, !length_fmap, length_seqZ in H. lia.
  - done.
  - done.
  - intros u [k Hk]%list_elem_of_lookup.
    destruct (Hus k u Hk) as (u' & Hk' & Hsame).
    destruct (same_profile_fields _ _ Hsame) as (Hid & _).
    apply (list_find_elem_of (λ x, User.id x = User.id u) _ u');
      [by eapply list_elem_of_lookup_2|done].
  - intros a [k Hk]%list_elem_of_lookup.
    destruct (Hacts k a Hk) as (a' & Hk' & Hsame).
    destruct (same_offer_fields _ _ Hsame) as (Hid & _).
    apply (list_find_elem_of (λ x, Activity.id x = Activity.id a) _ a');
      [by eapply list_elem_of_lookup_2|done].
Qed.

(** X21: A date that does not convert is accepted by [add_activity] and stays:
    after the activity was added, and after any further calls, every
    [match_activities] for a stored user raises the [ValueError] of the
    conversion. *)
Theorem bad_date_stays (lower : string → string)
    (strptime_weekday : string → option string)
    (nm c l dt t ds : string) (cs : list Call) (st : State) :
  strptime_weekday dt = None →
  ∃ a st1,
    add_activity nm c l dt t ds st = (Ok a, st1) ∧
    ∀ u, u ∈ users (data (run cs st1)) →
         match_activities lower strptime_weekday (User.id u) (run cs st1)
         = (Raise ValueError, run cs st1).
Proof.
  intros Hbad. rewrite add_activity_eq. cbn zeta.
  set (a := Activity.mk _ nm c l dt t ds []). set (st1 := mkState _ _).
  exists a, st1. split; [done|]. intros u Hu.
  destruct (run_keeps_records cs st1) as [_ Hacts].
  destruct (Hacts (length (activities (data st))) a) as (a' & Hk' & Hsame).
  { cbn. by apply list_lookup_middle. }
  destruct (same_offer_fields _ _ Hsame) as (_ & _ & _ & Hdate).
  destruct (list_find_elem_of (λ x, User.id x = User.id u)
              (users (data (run cs st1))) u Hu eq_refl) as [[i u0] Hfind].
  unfold match_activities, bind, get_data, find_user. rewrite Hfind.
  apply match_loop_raises. exists a'. split; [by eapply list_elem_of_lookup_2|].
  by rewrite <- Hdate.
Qed.

Lemma bad_date_stays_witness :
  ∃ a st1,
    add_activity "养老院关爱探访" "关爱老人" "东城区" "2024-02-30" "10:00-12:00" ""
      Sample.state = (Ok a, st1) ∧
    ∀ u, u ∈ users (data (run [Register 1 1; Unregister 1 0%nat] st1)) →
         match_activities Runtime.lower Runtime.strptime_weekday (User.id u)
           (run [Register 1 1; Unregister 1 0%nat] st1)
         = (Raise ValueError, run [Register 1 1; Unregister 1 0%nat] st1).
Proof. apply bad_date_stays. reflexivity. Defined.

(** ** The registration form *)

(** X22: The form creates a user exactly when the name, the categories and the
    days are all non-empty, and then by [register_user] on what was
    entered; otherwise it shows the error of the first missing entry, in
    the order name, categories, days, and leaves the state untouched. *)
Theorem form_validates (name location : string)
    (preferred_categories available_days : list string) (st : State) :
  ∃ r st',
    submit_registration name location preferred_categories available_days st = (Ok r, st') ∧
    ((∃ u, r = Registered u) ↔
     name ≠ "" ∧ preferred_categories ≠ [] ∧ available_days ≠ []) ∧
    (∀ u, r = Registered u →
          register_user name location preferred_categories available_days st = (Ok u, st') ∧
          User.name u ≠ "" ∧ User.preferred_categories u ≠ [] ∧
          User.available_days u ≠ []) ∧
    (∀ msg, r = FormError msg →
            st' = st ∧
            msg = (if bool_decide (name = "") then name_missing
                   else if bool_decide (preferred_categories = []) then categories_missing
                   else days_missing)).
Proof.
  unfold submit_registration.
  destruct name as [|c name]; [|destruct preferred_categories as [|pc pcs];
                                 [|destruct available_days as [|ad ads]]].
  - eexists _, _. split_and!; [done| | |].
    + split; [intros [u Hu]; discriminate|]. by intros [? _].
    + intros u Hu. discriminate.
    + intros msg Hmsg. split; [done|]. rewrite bool_decide_eq_true_2 by done. congruence.
  - eexists _, _. split_and!; [done| | |].
    + split; [intros [u Hu]; discriminate|]. by intros (_ & ? & _).
    + intros u Hu. discriminate.
    + intros msg Hmsg. split; [done|].
      rewrite bool_decide_eq_false_2 by done. rewrite bool_decide_eq_true_2 by done.
      congruence.
  - eexists _, _. split_and!; [done| | |].
    + split; [intros [u Hu]; discriminate|]. by intros (_ & _ & ?).
    + intros u Hu. discriminate.
    + intros msg Hmsg. split; [done|].
      rewrite !bool_decide_eq_false_2 by done. congruence.
  - unfold bind. rewrite register_user_eq. cbn zeta. eexists _, _. split_and!; [done| | |].
    + split; [done|]. intros _. eauto.
    + intros u Hu. injection Hu as <-. by split_and!.
    + intros msg Hmsg. discriminate.
Qed.
